(** * kinrou_plus: the encrypted credential vault and its access gate

    A shallow embedding of the two scripts that own the vault:

    - the popup's [CredentialManager] class (save / get / getSavedCodes /
      exists / clear and the session key accessors), and
    - the service worker (its own copies of the read path, [isValidSender]
      and the [chrome.runtime.onMessage] listener).

    [chrome.storage.local] and [chrome.storage.session] are finite maps from
    key names to stored values; every asynchronous function of the source is
    a computation over a [world] that threads both stores, the entropy the
    platform hands out, and the trace of storage calls.  The Web Crypto
    primitives (AES-GCM, raw key import and export) are not part of the
    repository: they are the operations of the [Platform] class, with the
    two laws the vault relies on.

    What the embedding fixes:

    - a stored value is a string or an array of integers, the two shapes
      the extension writes; a string is carried as its bytes in generalised
      UTF-8, and [TextEncoder] and [TextDecoder] work on those bytes as the
      Encoding standard has them;
    - a [chrome.storage] call completes (quota and I/O failures of the
      backend are not modelled), so the exceptions the [try] blocks catch
      come from the typed array constructor and from Web Crypto;
    - [console] output is left out. *)

From Stdlib Require Import ZArith String Ascii List Bool Lia.
From Stdlib.Strings Require Import Byte.
From stdpp Require Import base option list gmap strings.

Local Open Scope string_scope.
Local Open Scope Z_scope.

(** ** Bytes and stored values *)

(** A stored value has one of the two shapes the extension writes: a string
    (the two codes) or an array of numbers (key, ciphertext, nonce). *)
Inductive value : Type :=
  | VStr (s : string)
  | VNums (a : list Z).

(** JavaScript truthiness of a stored value: the empty string is falsy,
    every array (the empty one too) is truthy. *)
Definition truthy (v : value) : bool :=
  match v with
  | VStr s => negb (String.eqb s "")
  | VNums _ => true
  end.

(** [result[key]] is [undefined] when the key is missing; [!x] then holds. *)
Definition truthy_opt (o : option value) : bool :=
  match o with
  | Some v => truthy v
  | None => false
  end.

Definition Z_of_byte (b : byte) : Z := Z.of_N (Byte.to_N b).

(** Conversion of a number to an element of a [Uint8Array]: modulo 2^8. *)
Definition byte_of_Z (z : Z) : byte :=
  match Byte.of_N (Z.to_N (z mod 256)) with
  | Some b => b
  | None => x00
  end.

(** [Array.from(u8)] for a [Uint8Array] [u8]. *)
Definition Array_from (u8 : list byte) : value := VNums (map Z_of_byte u8).

(** ** Text encoding

    A JavaScript string is a sequence of UTF-16 code units.  It is carried
    here as its bytes in generalised UTF-8: a code point takes its UTF-8
    form, and a surrogate code unit that is not part of a pair takes the
    three-byte form [ED A0..BF 80..BF].  A string without unpaired
    surrogates is thus carried as its UTF-8 bytes. *)

Definition byte_in (lo hi : N) (b : byte) : bool :=
  (lo <=? Byte.to_N b)%N && (Byte.to_N b <=? hi)%N.

(** The lead bytes of UTF-8 and the range their second byte is held to. *)
Definition is_ascii (b : byte) : bool := (Byte.to_N b <=? 0x7F)%N.
Definition lead2 (b : byte) : bool := byte_in 0xC2 0xDF b.
Definition lead3 (b : byte) : bool := byte_in 0xE0 0xEF b.
Definition lead4 (b : byte) : bool := byte_in 0xF0 0xF4 b.
Definition second_lo (b : byte) : N :=
  if (Byte.to_N b =? 0xE0)%N then 0xA0%N
  else if (Byte.to_N b =? 0xF0)%N then 0x90%N else 0x80%N.
Definition second_hi (b : byte) : N :=
  if (Byte.to_N b =? 0xED)%N then 0x9F%N
  else if (Byte.to_N b =? 0xF4)%N then 0x8F%N else 0xBF%N.

(** U+FFFD in UTF-8. *)
Definition REPLACEMENT : list byte := [xef; xbf; xbd].

(** Conversion of a string to a scalar value string, which the argument of
    [TextEncoder.encode] undergoes: every unpaired surrogate becomes
    U+FFFD. *)
Fixpoint to_USVString (bs : list byte) : list byte :=
  match bs with
  | [] => []
  | b1 :: tl =>
      match tl with
      | b2 :: b3 :: rest =>
          if (Byte.to_N b1 =? 0xED)%N && byte_in 0xA0 0xBF b2
             && byte_in 0x80 0xBF b3
          then (REPLACEMENT ++ to_USVString rest)%list
          else b1 :: to_USVString tl
      | _ => b1 :: to_USVString tl
      end
  end.

(** [new TextEncoder().encode(s)]. *)
Definition encode (s : string) : list byte :=
  to_USVString (list_byte_of_string s).

(** The UTF-8 decoder of the Encoding standard, reading a byte in its
    initial state: the code point emitted at once and the state entered
    (bytes needed, bounds of the next byte, bytes of the sequence so far). *)
Definition utf8_lead (b : byte) : list byte * (nat * N * N * list byte) :=
  if is_ascii b then ([b], (0%nat, 0x80%N, 0xBF%N, []))
  else if lead2 b then ([], (1%nat, 0x80%N, 0xBF%N, [b]))
  else if lead3 b then ([], (2%nat, second_lo b, second_hi b, [b]))
  else if lead4 b then ([], (3%nat, second_lo b, second_hi b, [b]))
  else (REPLACEMENT, (0%nat, 0x80%N, 0xBF%N, [])).

(** The decoder in replacement mode.  A byte outside the bounds ends the
    sequence with U+FFFD and is read again in the initial state; the end of
    the input inside a sequence gives U+FFFD; a completed sequence gives its
    code point, that is, its own bytes. *)
Fixpoint utf8_decode (needed : nat) (lo hi : N) (seen : list byte)
    (bs : list byte) {struct bs} : list byte :=
  match bs with
  | [] => match needed with O => [] | S _ => REPLACEMENT end
  | b :: rest =>
      match needed with
      | O =>
          let '(out, (needed', lo', hi', seen')) := utf8_lead b in
          (out ++ utf8_decode needed' lo' hi' seen' rest)%list
      | S n =>
          if byte_in lo hi b then
            match n with
            | O => ((seen ++ [b]) ++ utf8_decode 0 0x80 0xBF [] rest)%list
            | S _ => utf8_decode n 0x80 0xBF (seen ++ [b])%list rest
            end
          else
            let '(out, (needed', lo', hi', seen')) := utf8_lead b in
            (REPLACEMENT ++ out
               ++ utf8_decode needed' lo' hi' seen' rest)%list
      end
  end.

(** The byte order mark [EF BB BF], which a [TextDecoder] built without
    [ignoreBOM] drops from the start of its input. *)
Definition starts_with_BOM (bs : list byte) : bool :=
  match bs with
  | b1 :: b2 :: b3 :: _ =>
      (Byte.to_N b1 =? 0xEF)%N && (Byte.to_N b2 =? 0xBB)%N
      && (Byte.to_N b3 =? 0xBF)%N
  | _ => false
  end.

Definition strip_BOM (bs : list byte) : list byte :=
  if starts_with_BOM bs then skipn 3 bs else bs.

(** [new TextDecoder().decode(d)]. *)
Definition decode (d : list byte) : string :=
  string_of_list_byte (utf8_decode 0 0x80 0xBF [] (strip_BOM d)).

(** Well-formed UTF-8, by the table of the Unicode standard (Table 3-7). *)
Fixpoint well_formed_utf8 (bs : list byte) : bool :=
  match bs with
  | [] => true
  | b1 :: r1 =>
      if is_ascii b1 then well_formed_utf8 r1
      else
        match r1 with
        | [] => false
        | b2 :: r2 =>
            if lead2 b1 then byte_in 0x80 0xBF b2 && well_formed_utf8 r2
            else
              match r2 with
              | [] => false
              | b3 :: r3 =>
                  if lead3 b1 then
                    byte_in (second_lo b1) (second_hi b1) b2
                    && byte_in 0x80 0xBF b3 && well_formed_utf8 r3
                  else
                    match r3 with
                    | [] => false
                    | b4 :: r4 =>
                        lead4 b1
                        && byte_in (second_lo b1) (second_hi b1) b2
                        && byte_in 0x80 0xBF b3 && byte_in 0x80 0xBF b4
                        && well_formed_utf8 r4
                    end
              end
        end
  end.

(** A string without unpaired surrogates that does not begin with
    U+FEFF. *)
Definition plain_text (s : string) : bool :=
  well_formed_utf8 (list_byte_of_string s)
  && negb (starts_with_BOM (list_byte_of_string s)).

(** ** Exceptions and the platform *)

Inductive exn : Type :=
  | DataError        (* importKey: the raw bytes are not a key *)
  | OperationError   (* encrypt or decrypt failed *)
  | RangeError       (* an invalid typed array length *)
  | TypeError.       (* a property read on null or undefined *)

Inductive outcome (A : Type) : Type :=
  | Ok (a : A)
  | Throw (e : exn).
Arguments Ok {A} a.
Arguments Throw {A} e.

(** What the browser provides.  [generateKey r] is the key minted from the
    32 bytes of entropy [r]; [importKey], [encrypt] and [decrypt] return
    [None] where the promise rejects.  [ToIndex s] is the length
    [new Uint8Array(s)] takes for a string primitive [s] ([None]: a
    RangeError).  [runtime_id] is [chrome.runtime.id]. *)
Class Platform : Type := {
  CryptoKey : Type;
  generateKey : list byte -> CryptoKey;
  exportKey : CryptoKey -> list byte;
  importKey : list byte -> option CryptoKey;
  encrypt : CryptoKey -> list byte -> list byte -> option (list byte);
  decrypt : CryptoKey -> list byte -> list byte -> option (list byte);
  ToIndex : string -> option nat;
  runtime_id : string;
  (** an exported fresh key imports back to the same key *)
  import_export_generated :
    forall r, importKey (exportKey (generateKey r)) = Some (generateKey r);
  (** AES-GCM opens what it sealed under the same key and nonce *)
  decrypt_encrypt :
    forall k iv d c, encrypt k iv d = Some c -> decrypt k iv c = Some d
}.

(** ** The world: both stores, entropy, and the trace of storage calls *)

Inductive event : Type :=
  | SessionGet (k : string)
  | SessionSet (items : list (string * value))
  | SessionRemove (k : string)
  | LocalGet (ks : list string)
  | LocalSet (items : list (string * value))
  | LocalRemove (ks : list string).

(** [trace] lists the storage calls made so far, the latest first.
    [entropy] is the stream of random bytes and [drawn] how many of them
    have been handed out. *)
Record world : Type := World {
  local : gmap string value;
  session : gmap string value;
  entropy : nat -> byte;
  drawn : nat;
  trace : list event
}.

Definition log (e : event) (w : world) : world :=
  World (local w) (session w) (entropy w) (drawn w) (e :: trace w).

Definition with_local (m : gmap string value) (w : world) : world :=
  World m (session w) (entropy w) (drawn w) (trace w).

Definition with_session (m : gmap string value) (w : world) : world :=
  World (local w) m (entropy w) (drawn w) (trace w).

(** ** Asynchronous functions as computations over the world *)

Definition js (A : Type) : Type := world -> outcome A * world.

Definition js_ret {A} (a : A) : js A := fun w => (Ok a, w).

Definition js_bind {A B} (f : A -> js B) (m : js A) : js B :=
  fun w =>
    match m w with
    | (Ok a, w') => f a w'
    | (Throw e, w') => (Throw e, w')
    end.

#[global] Instance js_mret : MRet js := @js_ret.
#[global] Instance js_mbind : MBind js := @js_bind.

Definition throw {A} (e : exn) : js A := fun w => (Throw e, w).

(** [try { body } catch (error) { handler }] *)
Definition try_catch {A} (body : js A) (handler : exn -> js A) : js A :=
  fun w =>
    match body w with
    | (Ok a, w') => (Ok a, w')
    | (Throw e, w') => handler e w'
    end.

(** A promise of the platform that may reject with [e]. *)
Definition await {A} (e : exn) (o : option A) : js A :=
  match o with
  | Some a => mret a
  | None => throw e
  end.

(** ** chrome.storage *)

(** The result object of [get(keys)]: the requested keys that are stored. *)
Definition storage_get (ks : list string) (m : gmap string value)
  : gmap string value :=
  foldr (fun k r => match m !! k with
                    | Some v => <[k:=v]> r
                    | None => r
                    end) ∅ ks.

Definition storage_set (items : list (string * value)) (m : gmap string value)
  : gmap string value :=
  foldl (fun r kv => <[kv.1:=kv.2]> r) m items.

Definition storage_remove (ks : list string) (m : gmap string value)
  : gmap string value :=
  foldr delete m ks.

#[global] Arguments storage_get : simpl never.
#[global] Arguments storage_set : simpl never.
#[global] Arguments storage_remove : simpl never.

Definition session_get (k : string) : js (gmap string value) :=
  fun w => (Ok (storage_get [k] (session w)), log (SessionGet k) w).

Definition session_set (items : list (string * value)) : js unit :=
  fun w => (Ok tt, log (SessionSet items)
                     (with_session (storage_set items (session w)) w)).

Definition session_remove (k : string) : js unit :=
  fun w => (Ok tt, log (SessionRemove k)
                     (with_session (storage_remove [k] (session w)) w)).

Definition local_get (ks : list string) : js (gmap string value) :=
  fun w => (Ok (storage_get ks (local w)), log (LocalGet ks) w).

Definition local_set (items : list (string * value)) : js unit :=
  fun w => (Ok tt, log (LocalSet items)
                     (with_local (storage_set items (local w)) w)).

Definition local_remove (ks : list string) : js unit :=
  fun w => (Ok tt, log (LocalRemove ks)
                     (with_local (storage_remove ks (local w)) w)).

(** [crypto.getRandomValues(new Uint8Array(n))] *)
Definition getRandomValues (n : nat) : js (list byte) :=
  fun w => (Ok (map (entropy w) (seq (drawn w) n)),
            World (local w) (session w) (entropy w) (drawn w + n)%nat (trace w)).

(** [new Uint8Array(v)] for a stored value [v]: an array of numbers is
    converted element by element; a string primitive gives a zero-filled
    array of [ToIndex] elements.  [None]: the constructor throws. *)
Definition Uint8Array {P : Platform} (v : value) : option (list byte) :=
  match v with
  | VNums a => Some (map byte_of_Z a)
  | VStr s => match ToIndex s with
              | Some n => Some (repeat x00 n)
              | None => None
              end
  end.

(** ** Results of the vault *)

(** [{companyCode, employeeCode, password}]: the codes are returned as they
    are stored. *)
Record Credential : Type := {
  companyCode : value;
  employeeCode : value;
  password : string
}.

(** [{companyCode, employeeCode}] *)
Record SavedCodes : Type := {
  saved_companyCode : value;
  saved_employeeCode : value
}.

(** ** Validation: [/^\d{lo,hi}$/.test(s)] *)

Definition is_digit (c : ascii) : bool :=
  (48 <=? nat_of_ascii c)%nat && (nat_of_ascii c <=? 57)%nat.

Definition test_digits (lo hi : nat) (s : string) : bool :=
  forallb is_digit (list_ascii_of_string s)
  && (lo <=? String.length s)%nat && (String.length s <=? hi)%nat.

(** ** The popup's credential manager *)

Module CredentialManager.

Definition STORAGE_KEY_COMPANY : string := "kinrou_company_code".
Definition STORAGE_KEY_EMPLOYEE : string := "kinrou_employee_code".
Definition STORAGE_KEY_PASSWORD : string := "kinrou_encrypted_password".
Definition STORAGE_KEY_IV : string := "kinrou_password_iv".
Definition SESSION_KEY_CRYPTO : string := "kinrou_crypto_key".

Definition isValidCompanyCode (companyCode : string) : bool :=
  test_digits 1 5 companyCode.

Definition isValidEmployeeCode (employeeCode : string) : bool :=
  test_digits 1 10 employeeCode.

Section with_platform.
Context {P : Platform}.

(** Imports the stored key when [if (storedKey)] holds; otherwise mints a
    key, stores its exported bytes in the session-scoped store, and
    returns it. *)
Definition getOrCreateCryptoKey : js CryptoKey :=
  result ← session_get SESSION_KEY_CRYPTO;
  let storedKey := result !! SESSION_KEY_CRYPTO in
  let fresh : js CryptoKey :=
    r ← getRandomValues 32;
    let key := generateKey r in
    let exportedKey := exportKey key in
    session_set [(SESSION_KEY_CRYPTO, Array_from exportedKey)];;
    mret key in
  match storedKey with
  | Some storedKey =>
      if truthy storedKey then
        raw ← await RangeError (Uint8Array storedKey);
        await DataError (importKey raw)
      else fresh
  | None => fresh
  end.

(** The read-only accessor: [null] when [!storedKey]. *)
Definition getCryptoKey : js (option CryptoKey) :=
  result ← session_get SESSION_KEY_CRYPTO;
  match result !! SESSION_KEY_CRYPTO with
  | Some storedKey =>
      if truthy storedKey then
        raw ← await RangeError (Uint8Array storedKey);
        key ← await DataError (importKey raw);
        mret (Some key)
      else mret None
  | None => mret None
  end.

Definition encryptPassword (password : string) (key : CryptoKey)
  : js (value * value) :=
  let data := encode password in
  iv ← getRandomValues 12;
  encrypted ← await OperationError (encrypt key iv data);
  mret (Array_from encrypted, Array_from iv).

Definition decryptPassword (encryptedData iv : value) (key : CryptoKey)
  : js string :=
  iv8 ← await RangeError (Uint8Array iv);
  data8 ← await RangeError (Uint8Array encryptedData);
  decrypted ← await OperationError (decrypt key iv8 data8);
  mret (decode decrypted).

Definition save (companyCode employeeCode password : string) : js bool :=
  try_catch
    (if negb (isValidCompanyCode companyCode) then mret false
     else if negb (isValidEmployeeCode employeeCode) then mret false
     else if String.eqb password "" then mret false
     else
       cryptoKey ← getOrCreateCryptoKey;
       '(encrypted, iv) ← encryptPassword password cryptoKey;
       local_set [(STORAGE_KEY_COMPANY, VStr companyCode);
                  (STORAGE_KEY_EMPLOYEE, VStr employeeCode);
                  (STORAGE_KEY_PASSWORD, encrypted);
                  (STORAGE_KEY_IV, iv)];;
       mret true)
    (fun _ => mret false).

(** The guard [!companyCode || !employeeCode || !encryptedPassword || !iv]
    lets through exactly the results whose four fields are stored and
    truthy. *)
Definition get : js (option Credential) :=
  try_catch
    (cryptoKey ← getCryptoKey;
     match cryptoKey with
     | None => mret None
     | Some cryptoKey =>
         result ← local_get [STORAGE_KEY_COMPANY; STORAGE_KEY_EMPLOYEE;
                             STORAGE_KEY_PASSWORD; STORAGE_KEY_IV];
         match result !! STORAGE_KEY_COMPANY,
               result !! STORAGE_KEY_EMPLOYEE,
               result !! STORAGE_KEY_PASSWORD,
               result !! STORAGE_KEY_IV with
         | Some companyCode, Some employeeCode,
           Some encryptedPassword, Some iv =>
             if truthy companyCode && truthy employeeCode
                && truthy encryptedPassword && truthy iv then
               password ← decryptPassword encryptedPassword iv cryptoKey;
               mret (Some (Build_Credential companyCode employeeCode
                                            password))
             else mret None
         | _, _, _, _ => mret None
         end
     end)
    (fun _ => mret None).

Definition getSavedCodes : js (option SavedCodes) :=
  try_catch
    (result ← local_get [STORAGE_KEY_COMPANY; STORAGE_KEY_EMPLOYEE];
     match result !! STORAGE_KEY_COMPANY,
           result !! STORAGE_KEY_EMPLOYEE with
     | Some companyCode, Some employeeCode =>
         if truthy companyCode && truthy employeeCode then
           mret (Some (Build_SavedCodes companyCode employeeCode))
         else mret None
     | _, _ => mret None
     end)
    (fun _ => mret None).

(** [exists()]: [credential !== null]. *)
Definition exists_ : js bool :=
  credential ← get;
  mret (match credential with Some _ => true | None => false end).

Definition clear : js bool :=
  try_catch
    (local_remove [STORAGE_KEY_COMPANY; STORAGE_KEY_EMPLOYEE;
                   STORAGE_KEY_PASSWORD; STORAGE_KEY_IV];;
     session_remove SESSION_KEY_CRYPTO;;
     mret true)
    (fun _ => mret false).

End with_platform.

End CredentialManager.

(** ** The service worker *)

(** [chrome.runtime.MessageSender]: the two properties the gate reads. *)
Record MessageSender : Type := {
  sender_id : option string;
  sender_url : option string
}.

(** The message the listener is called with: [null] or [undefined]; a
    value whose [type] is a string; or any other value, whose [type] is
    then no string and equals neither request name. *)
Inductive Message : Type :=
  | Nullish
  | Typed (type : string)
  | Untyped.

(** What [sendResponse] is called with. *)
Inductive response : Type :=
  | Null
  | Credentials (c : Credential)
  | Codes (c : SavedCodes).

(** One run of the listener: the argument of [sendResponse], if it was
    called, and the listener's return value ([None]: [undefined]). *)
Record Handled : Type := {
  sent : option response;
  returned : option bool
}.

Module ServiceWorker.

Definition STORAGE_KEY_COMPANY : string := "kinrou_company_code".
Definition STORAGE_KEY_EMPLOYEE : string := "kinrou_employee_code".
Definition STORAGE_KEY_PASSWORD : string := "kinrou_encrypted_password".
Definition STORAGE_KEY_IV : string := "kinrou_password_iv".
Definition SESSION_KEY_CRYPTO : string := "kinrou_crypto_key".

Definition TRUSTED_PREFIX : string := "https://kinrouap1.hr44.jp/".

Section with_platform.
Context {P : Platform}.

(** The read-only accessor: [null] when [!storedKey]. *)
Definition getCryptoKey : js (option CryptoKey) :=
  result ← session_get SESSION_KEY_CRYPTO;
  match result !! SESSION_KEY_CRYPTO with
  | Some storedKey =>
      if truthy storedKey then
        raw ← await RangeError (Uint8Array storedKey);
        key ← await DataError (importKey raw);
        mret (Some key)
      else mret None
  | None => mret None
  end.

Definition decryptPassword (encryptedData iv : value) (key : CryptoKey)
  : js string :=
  iv8 ← await RangeError (Uint8Array iv);
  data8 ← await RangeError (Uint8Array encryptedData);
  decrypted ← await OperationError (decrypt key iv8 data8);
  mret (decode decrypted).

Definition getCredentials : js (option Credential) :=
  try_catch
    (cryptoKey ← getCryptoKey;
     match cryptoKey with
     | None => mret None
     | Some cryptoKey =>
         result ← local_get [STORAGE_KEY_COMPANY; STORAGE_KEY_EMPLOYEE;
                             STORAGE_KEY_PASSWORD; STORAGE_KEY_IV];
         match result !! STORAGE_KEY_COMPANY,
               result !! STORAGE_KEY_EMPLOYEE,
               result !! STORAGE_KEY_PASSWORD,
               result !! STORAGE_KEY_IV with
         | Some companyCode, Some employeeCode,
           Some encryptedPassword, Some iv =>
             if truthy companyCode && truthy employeeCode
                && truthy encryptedPassword && truthy iv then
               password ← decryptPassword encryptedPassword iv cryptoKey;
               mret (Some (Build_Credential companyCode employeeCode
                                            password))
             else mret None
         | _, _, _, _ => mret None
         end
     end)
    (fun _ => mret None).

Definition getSavedCodes : js (option SavedCodes) :=
  try_catch
    (result ← local_get [STORAGE_KEY_COMPANY; STORAGE_KEY_EMPLOYEE];
     match result !! STORAGE_KEY_COMPANY,
           result !! STORAGE_KEY_EMPLOYEE with
     | Some companyCode, Some employeeCode =>
         if truthy companyCode && truthy employeeCode then
           mret (Some (Build_SavedCodes companyCode employeeCode))
         else mret None
     | _, _ => mret None
     end)
    (fun _ => mret None).

(** [sender.id === chrome.runtime.id] *)
Definition own_id (sender : MessageSender) : bool :=
  match sender_id sender with
  | Some id => String.eqb id runtime_id
  | None => false
  end.

(** [if (sender.url)] holds for a non-empty URL only. *)
Definition isValidSender (sender : MessageSender) : bool :=
  if own_id sender then
    match sender_url sender with
    | Some url =>
        if negb (String.eqb url "") then String.prefix TRUSTED_PREFIX url
        else true
    | None => true
    end
  else false.

Definition credentials_response (c : option Credential) : response :=
  match c with Some c => Credentials c | None => Null end.

Definition codes_response (c : option SavedCodes) : response :=
  match c with Some c => Codes c | None => Null end.

(** The [chrome.runtime.onMessage] listener on a message whose [type] is
    the string [message_type], run until the response it started has been
    sent. *)
Definition onMessage (message_type : string) (sender : MessageSender)
  : js Handled :=
  if negb (isValidSender sender) then
    mret {| sent := Some Null; returned := Some false |}
  else if String.eqb message_type "GET_CREDENTIALS" then
    c ← getCredentials;
    mret {| sent := Some (credentials_response c); returned := Some true |}
  else if String.eqb message_type "GET_SAVED_CODES" then
    c ← getSavedCodes;
    mret {| sent := Some (codes_response c); returned := Some true |}
  else
    mret {| sent := None; returned := None |}.

(** [message.type]: a TypeError on [null] and [undefined]. *)
Definition type_of (message : Message) : js (option string) :=
  match message with
  | Nullish => throw TypeError
  | Typed type => mret (Some type)
  | Untyped => mret None
  end.

(** [type === name] *)
Definition type_is (type : option string) (name : string) : bool :=
  match type with
  | Some type => String.eqb type name
  | None => false
  end.

(** The listener on any message, run until the response it started has
    been sent.  A refused sender is answered before the message is looked
    at. *)
Definition listener (message : Message) (sender : MessageSender)
  : js Handled :=
  if negb (isValidSender sender) then
    mret {| sent := Some Null; returned := Some false |}
  else
    type ← type_of message;
    if type_is type "GET_CREDENTIALS" then
      c ← getCredentials;
      mret {| sent := Some (credentials_response c); returned := Some true |}
    else if type_is type "GET_SAVED_CODES" then
      c ← getSavedCodes;
      mret {| sent := Some (codes_response c); returned := Some true |}
    else
      mret {| sent := None; returned := None |}.

End with_platform.

End ServiceWorker.

(** * Vocabulary of the properties *)

Section vocabulary.
Context {P : Platform}.

(** The key whose raw bytes the session-scoped store holds, if any. *)
Definition active_key (w : world) : option CryptoKey :=
  match session w !! CredentialManager.SESSION_KEY_CRYPTO with
  | Some storedKey =>
      if truthy storedKey then
        match Uint8Array storedKey with
        | Some raw => importKey raw
        | None => None
        end
      else None
  | None => None
  end.

(** No key is stored: the slot is missing, or holds a falsy value. *)
Definition key_absent (w : world) : Prop :=
  truthy_opt (session w !! CredentialManager.SESSION_KEY_CRYPTO) = false.

(** What importing the stored value [storedKey] gives. *)
Definition import_stored (storedKey : value) : outcome CryptoKey :=
  match Uint8Array storedKey with
  | Some raw => match importKey raw with
                | Some key => Ok key
                | None => Throw DataError
                end
  | None => Throw RangeError
  end.

(** The world after a key has been minted from the next 32 bytes of entropy. *)
Definition minted_key (w : world) : CryptoKey :=
  generateKey (map (entropy w) (seq (drawn w) 32)).

Definition minted_world (w : world) : world :=
  {| local := local w;
     session := <[CredentialManager.SESSION_KEY_CRYPTO :=
                    Array_from (exportKey (minted_key w))]> (session w);
     entropy := entropy w;
     drawn := drawn w + 32;
     trace := SessionSet [(CredentialManager.SESSION_KEY_CRYPTO,
                           Array_from (exportKey (minted_key w)))]
              :: SessionGet CredentialManager.SESSION_KEY_CRYPTO :: trace w |}.

Definition LOCAL_KEYS : list string :=
  [CredentialManager.STORAGE_KEY_COMPANY; CredentialManager.STORAGE_KEY_EMPLOYEE;
   CredentialManager.STORAGE_KEY_PASSWORD; CredentialManager.STORAGE_KEY_IV].

(** One of the four persisted fields is missing (or holds a falsy value). *)
Definition field_missing (w : world) : Prop :=
  exists k, k ∈ LOCAL_KEYS /\ truthy_opt (local w !! k) = false.

(** What opening the stored ciphertext under the stored nonce and the stored
    key gives: [None] when the key cannot be imported, the ciphertext or the
    nonce is not there, or AES-GCM rejects. *)
Definition decrypt_stored (w : world) : option string :=
  match active_key w,
        local w !! CredentialManager.STORAGE_KEY_PASSWORD,
        local w !! CredentialManager.STORAGE_KEY_IV with
  | Some key, Some encryptedPassword, Some iv =>
      match Uint8Array iv, Uint8Array encryptedPassword with
      | Some iv8, Some data8 =>
          match decrypt key iv8 data8 with
          | Some decrypted => Some (decode decrypted)
          | None => None
          end
      | _, _ => None
      end
  | _, _, _ => None
  end.

Definition decryption_fails (w : world) : Prop := decrypt_stored w = None.

(** The record [get] builds when nothing is in its way. *)
Definition stored_credential (w : world) : option Credential :=
  match local w !! CredentialManager.STORAGE_KEY_COMPANY,
        local w !! CredentialManager.STORAGE_KEY_EMPLOYEE,
        decrypt_stored w with
  | Some companyCode, Some employeeCode, Some password =>
      Some (Build_Credential companyCode employeeCode password)
  | _, _, _ => None
  end.

Definition fields_truthy (w : world) : bool :=
  truthy_opt (local w !! CredentialManager.STORAGE_KEY_COMPANY)
  && truthy_opt (local w !! CredentialManager.STORAGE_KEY_EMPLOYEE)
  && truthy_opt (local w !! CredentialManager.STORAGE_KEY_PASSWORD)
  && truthy_opt (local w !! CredentialManager.STORAGE_KEY_IV).

(** The four fields [save] writes, as one [set] call. *)
Definition saved_items (companyCode employeeCode : string)
    (encrypted iv : value) : list (string * value) :=
  [(CredentialManager.STORAGE_KEY_COMPANY, VStr companyCode);
   (CredentialManager.STORAGE_KEY_EMPLOYEE, VStr employeeCode);
   (CredentialManager.STORAGE_KEY_PASSWORD, encrypted);
   (CredentialManager.STORAGE_KEY_IV, iv)].

(** The nonce [encryptPassword] draws in the world [w]. *)
Definition next_iv (w : world) : list byte := map (entropy w) (seq (drawn w) 12).

(** The world once [n] bytes of entropy have been handed out. *)
Definition after_draw (n : nat) (w : world) : world :=
  {| local := local w; session := session w; entropy := entropy w;
     drawn := drawn w + n; trace := trace w |}.

(** The stores hold what the data model says: the session slot, when
    filled, holds the exported bytes of a key that imports back, and a
    persisted field, when present, holds a truthy value. *)
Definition well_formed (w : world) : Prop :=
  (forall storedKey,
     session w !! CredentialManager.SESSION_KEY_CRYPTO = Some storedKey ->
     exists key, storedKey = Array_from (exportKey key)
                 /\ importKey (exportKey key) = Some key)
  /\ (forall k v, k ∈ LOCAL_KEYS -> local w !! k = Some v -> truthy v = true).

(** The worlds the extension can be in: freshly installed, then any
    sequence of popup operations, messages to the service worker, and
    browser restarts (the host wipes the session-scoped store). *)
Inductive reachable : world -> Prop :=
  | reachable_install (e : nat -> byte) :
      reachable {| local := ∅; session := ∅; entropy := e;
                   drawn := 0; trace := [] |}
  | reachable_save (c e p : string) (w : world) :
      reachable w -> reachable (snd (CredentialManager.save c e p w))
  | reachable_get (w : world) :
      reachable w -> reachable (snd (CredentialManager.get w))
  | reachable_getSavedCodes (w : world) :
      reachable w -> reachable (snd (CredentialManager.getSavedCodes w))
  | reachable_exists (w : world) :
      reachable w -> reachable (snd (CredentialManager.exists_ w))
  | reachable_clear (w : world) :
      reachable w -> reachable (snd (CredentialManager.clear w))
  | reachable_message (message_type : string) (sender : MessageSender)
      (w : world) :
      reachable w ->
      reachable (snd (ServiceWorker.onMessage message_type sender w))
  | reachable_restart (w : world) :
      reachable w -> reachable (with_session ∅ w).

(** The sender was not given the extension's own id. *)
Definition foreign_sender (sender : MessageSender) : Prop :=
  sender_id sender <> Some runtime_id.

(** The sender carries the URL of a page outside the trusted prefix. *)
Definition untrusted_page (sender : MessageSender) : Prop :=
  exists url, sender_url sender = Some url
              /\ url <> ""
              /\ String.prefix ServiceWorker.TRUSTED_PREFIX url = false.

(** An extension page, reporting its own [chrome-extension://] URL. *)
Definition extension_page (path : string) : MessageSender :=
  {| sender_id := Some runtime_id;
     sender_url := Some ("chrome-extension://" ++ runtime_id ++ "/" ++ path) |}.

End vocabulary.

(** ** A reference platform

    An executable instance of [Platform], used to run the vault on concrete
    stores.  Keys are their raw bytes (16, 24 or 32 of them); sealing tags
    the plaintext with the key and the nonce, and opening checks the tag. *)

Module Reference.

Fixpoint strip_prefix (p l : list byte) : option (list byte) :=
  match p, l with
  | [], _ => Some l
  | a :: p', b :: l' => if Byte.eqb a b then strip_prefix p' l' else None
  | _ :: _, [] => None
  end.

Definition key_length_ok (raw : list byte) : bool :=
  let n := length raw in
  (n =? 16)%nat || (n =? 24)%nat || (n =? 32)%nat.

Definition generateKey (r : list byte) : list byte :=
  if (length r =? 32)%nat then r else repeat x00 32.

Definition importKey (raw : list byte) : option (list byte) :=
  if key_length_ok raw then Some raw else None.

Definition encrypt (k iv d : list byte) : option (list byte) :=
  if (length iv =? 12)%nat then Some ((k ++ iv) ++ d)%list else None.

Definition decrypt (k iv c : list byte) : option (list byte) :=
  strip_prefix (k ++ iv)%list c.

(** Decimal strings denote their value; anything else is NaN, hence 0. *)
Definition ToIndex (s : string) : option nat :=
  let cs := list_ascii_of_string s in
  if forallb is_digit cs then
    Some (fold_left (fun n c => (10 * n + (nat_of_ascii c - 48))%nat) cs 0%nat)
  else Some 0%nat.

#[export] Instance platform : Platform.
Proof.
  refine (Build_Platform (list byte) generateKey (fun k => k) importKey
            encrypt decrypt ToIndex "abcdefghijklmnopabcdefghijklmnop" _ _).
  - intros r. unfold importKey, generateKey, key_length_ok.
    destruct (length r =? 32)%nat eqn:E; [|reflexivity].
    rewrite E. now rewrite !orb_true_r.
  - intros k iv d c. unfold encrypt, decrypt.
    destruct (length iv =? 12)%nat; [|discriminate].
    intros [= <-]. generalize (k ++ iv)%list as p.
    induction p as [|a p IH]; simpl; [reflexivity|].
    now rewrite (Byte.byte_dec_lb (eq_refl a)).
Defined.

(** A freshly installed extension: both stores empty, nothing drawn. *)
Definition fresh_world : world :=
  {| local := ∅; session := ∅;
     entropy := fun n => byte_of_Z (Z.of_nat (7 * n + 3));
     drawn := 0; trace := [] |}.

(** The world after the first successful [save]. *)
Definition saved_world : world :=
  snd (CredentialManager.save (P:=platform) "12345" "0042" "hunter2" fresh_world).

(** The same world after a browser restart: the session-scoped store has
    been wiped, the persistent store has not. *)
Definition locked_world : world := with_session ∅ saved_world.

(** A content script running in a page of another origin. *)
Definition foreign_page : MessageSender :=
  {| sender_id := Some "abcdefghijklmnopabcdefghijklmnop";
     sender_url := Some "https://example.com/login" |}.

Definition surrogate_password : string :=
  string_of_list_byte [xed; xa0; x80].


End Reference.

(** * Properties *)

(** ** Bytes, text and truthiness *)

Lemma byte_of_Z_of_byte (b : byte) : byte_of_Z (Z_of_byte b) = b.
Proof.
  unfold byte_of_Z, Z_of_byte.
  pose proof (Byte.to_N_bounded b) as Hb.
  rewrite Z.mod_small by lia.
  rewrite N2Z.id. now rewrite Byte.of_to_N.
Qed.

Lemma bytes_of_Array_from (u8 : list byte) :
  map byte_of_Z (map Z_of_byte u8) = u8.
Proof.
  induction u8 as [|b u8 IH]; simpl; [reflexivity|].
  now rewrite byte_of_Z_of_byte, IH.
Qed.

Lemma Uint8Array_Array_from {P : Platform} (u8 : list byte) :
  Uint8Array (Array_from u8) = Some u8.
Proof. unfold Array_from; simpl. now rewrite bytes_of_Array_from. Qed.

(** *** Text that survives encoding and decoding *)

Lemma to_USVString_copy (b : byte) (r : list byte) :
  Byte.to_N b <> 0xED%N -> to_USVString (b :: r) = b :: to_USVString r.
Proof.
  intros Hb. apply N.eqb_neq in Hb.
  destruct r as [|b2 [|b3 r]]; cbn [to_USVString]; try reflexivity.
  now rewrite Hb.
Qed.

Lemma to_USVString_second (b1 b2 : byte) (r : list byte) :
  byte_in 0xA0 0xBF b2 = false ->
  to_USVString (b1 :: b2 :: r) = b1 :: to_USVString (b2 :: r).
Proof.
  intros Hb. destruct r as [|b3 r]; cbn [to_USVString]; try reflexivity.
  now rewrite Hb, andb_false_r.
Qed.

Lemma byte_in_spec (lo hi : N) (b : byte) :
  byte_in lo hi b = true <-> (lo <= Byte.to_N b <= hi)%N.
Proof.
  unfold byte_in. rewrite andb_true_iff, !N.leb_le. tauto.
Qed.

Lemma continuation_not_lead (lo hi : N) (b : byte) :
  byte_in lo hi b = true -> (hi <= 0xBF)%N -> Byte.to_N b <> 0xED%N.
Proof. rewrite byte_in_spec. lia. Qed.

Lemma second_hi_bound (b : byte) : (second_hi b <= 0xBF)%N.
Proof.
  unfold second_hi.
  destruct (Byte.to_N b =? 0xED)%N; [lia|].
  destruct (Byte.to_N b =? 0xF4)%N; lia.
Qed.

Lemma second_of_lead3 (b1 b2 : byte) :
  byte_in (second_lo b1) (second_hi b1) b2 = true ->
  Byte.to_N b1 = 0xED%N -> byte_in 0xA0 0xBF b2 = false.
Proof.
  intros H2 H1. apply byte_in_spec in H2.
  unfold second_hi in H2. rewrite H1 in H2. cbn in H2.
  apply not_true_is_false. rewrite byte_in_spec. lia.
Qed.

Lemma well_formed_to_USVString (n : nat) (bs : list byte) :
  (length bs <= n)%nat -> well_formed_utf8 bs = true -> to_USVString bs = bs.
Proof.
  revert bs. induction n as [|n IH]; intros bs Hn Hwf.
  { destruct bs; [reflexivity | cbn in Hn; lia]. }
  destruct bs as [|b1 r1]; [reflexivity|].
  cbn [well_formed_utf8] in Hwf. cbn [length] in Hn.
  destruct (is_ascii b1) eqn:Ha.
  { rewrite to_USVString_copy, IH; trivial; [lia|].
    unfold is_ascii in Ha. apply N.leb_le in Ha. lia. }
  destruct r1 as [|b2 r2]; [discriminate|]. cbn [length] in Hn.
  destruct (lead2 b1) eqn:H2.
  { apply andb_true_iff in Hwf as [Hb2 Hwf].
    rewrite to_USVString_copy, to_USVString_copy, IH; trivial; [lia| |].
    - now apply (continuation_not_lead _ _ _ Hb2).
    - apply byte_in_spec in H2. lia. }
  destruct r2 as [|b3 r3]; [discriminate|]. cbn [length] in Hn.
  destruct (lead3 b1) eqn:H3.
  { apply andb_true_iff in Hwf as [Hwf Hr]. apply andb_true_iff in Hwf as [Hb2 Hb3].
    assert (Hstep : to_USVString (b1 :: b2 :: b3 :: r3)
                    = b1 :: to_USVString (b2 :: b3 :: r3)).
    { destruct (N.eq_dec (Byte.to_N b1) 0xED%N) as [He|He].
      - apply to_USVString_second. now apply (second_of_lead3 b1).
      - now apply to_USVString_copy. }
    rewrite Hstep, to_USVString_copy, to_USVString_copy, IH; trivial; [lia| |].
    - now apply (continuation_not_lead _ _ _ Hb3).
    - apply (continuation_not_lead _ _ _ Hb2), second_hi_bound. }
  destruct r3 as [|b4 r4]; [discriminate|]. cbn [length] in Hn.
  apply andb_true_iff in Hwf as [Hwf Hr]. apply andb_true_iff in Hwf as [Hwf Hb4].
  apply andb_true_iff in Hwf as [Hwf Hb3]. apply andb_true_iff in Hwf as [H4 Hb2].
  rewrite to_USVString_copy, to_USVString_copy, to_USVString_copy,
    to_USVString_copy, IH; trivial; [lia| | | |].
  - now apply (continuation_not_lead _ _ _ Hb4).
  - now apply (continuation_not_lead _ _ _ Hb3).
  - apply (continuation_not_lead _ _ _ Hb2), second_hi_bound.
  - apply byte_in_spec in H4. lia.
Qed.

Lemma well_formed_utf8_decode (n : nat) (bs : list byte) :
  (length bs <= n)%nat -> well_formed_utf8 bs = true ->
  utf8_decode 0 0x80 0xBF [] bs = bs.
Proof.
  revert bs. induction n as [|n IH]; intros bs Hn Hwf.
  { destruct bs; [reflexivity | cbn in Hn; lia]. }
  destruct bs as [|b1 r1]; [reflexivity|].
  cbn [well_formed_utf8] in Hwf. cbn [length] in Hn.
  cbn [utf8_decode]. unfold utf8_lead.
  destruct (is_ascii b1) eqn:Ha.
  { cbn [app]. rewrite IH; trivial. lia. }
  destruct r1 as [|b2 r2]; [discriminate|]. cbn [length] in Hn.
  destruct (lead2 b1) eqn:H2.
  { apply andb_true_iff in Hwf as [Hb2 Hwf].
    cbn [utf8_decode app]. rewrite Hb2. cbn [app]. rewrite IH; trivial. lia. }
  destruct r2 as [|b3 r3]; [discriminate|]. cbn [length] in Hn.
  destruct (lead3 b1) eqn:H3.
  { apply andb_true_iff in Hwf as [Hwf Hr]. apply andb_true_iff in Hwf as [Hb2 Hb3].
    cbn [utf8_decode app]. rewrite Hb2. cbn [utf8_decode app]. rewrite Hb3.
    cbn [app]. rewrite IH; trivial. lia. }
  destruct r3 as [|b4 r4]; [discriminate|]. cbn [length] in Hn.
  apply andb_true_iff in Hwf as [Hwf Hr]. apply andb_true_iff in Hwf as [Hwf Hb4].
  apply andb_true_iff in Hwf as [Hwf Hb3]. apply andb_true_iff in Hwf as [H4 Hb2].
  rewrite H4. cbn [utf8_decode app]. rewrite Hb2. cbn [utf8_decode app].
  rewrite Hb3. cbn [utf8_decode app]. rewrite Hb4. cbn [app].
  rewrite IH; trivial. lia.
Qed.

(** Encoding then decoding gives the string back when it has no unpaired
    surrogate and no U+FEFF at its start. *)
Lemma decode_encode (s : string) :
  plain_text s = true -> decode (encode s) = s.
Proof.
  unfold plain_text, decode, encode, strip_BOM. intros H.
  apply andb_true_iff in H as [Hwf Hbom].
  rewrite (well_formed_to_USVString _ _ (le_n _) Hwf).
  apply negb_true_iff in Hbom. rewrite Hbom.
  rewrite (well_formed_utf8_decode _ _ (le_n _) Hwf).
  apply string_of_list_byte_of_string.
Qed.

Lemma truthy_VStr (s : string) : truthy (VStr s) = true <-> s <> "".
Proof.
  simpl. destruct (String.eqb_spec s ""); simpl; split; congruence.
Qed.

Lemma test_digits_nonempty (hi : nat) (s : string) :
  test_digits 1 hi s = true -> s <> "".
Proof.
  unfold test_digits. intros Ht ->. simpl in Ht. discriminate.
Qed.

(** ** chrome.storage *)

Lemma elem_of_cons_ne (k k' : string) (ks : list string) :
  k <> k' -> k ∈ k' :: ks <-> k ∈ ks.
Proof.
  intros Hne. rewrite elem_of_cons. split; [|by right].
  intros [Heq|Hin]; [congruence|exact Hin].
Qed.

Lemma lookup_storage_get (ks : list string) (m : gmap string value) (k : string) :
  storage_get ks m !! k = if decide (k ∈ ks) then m !! k else None.
Proof.
  induction ks as [|k' ks IH].
  - rewrite decide_False by apply not_elem_of_nil. apply lookup_empty.
  - change (storage_get (k' :: ks) m)
      with (match m !! k' with
            | Some v => <[k':=v]> (storage_get ks m)
            | None => storage_get ks m
            end).
    destruct (decide (k = k')) as [->|Hne].
    + rewrite decide_True by apply list_elem_of_here.
      destruct (m !! k') as [v|] eqn:Hk.
      * by rewrite lookup_insert_eq.
      * rewrite IH. by case_decide.
    + rewrite (decide_ext _ _ _ _ (elem_of_cons_ne k k' ks Hne)), <- IH.
      destruct (m !! k'); [|reflexivity].
      by rewrite lookup_insert_ne.
Qed.

Lemma lookup_storage_remove (ks : list string) (m : gmap string value) (k : string) :
  storage_remove ks m !! k = if decide (k ∈ ks) then None else m !! k.
Proof.
  induction ks as [|k' ks IH].
  - by rewrite decide_False by apply not_elem_of_nil.
  - change (storage_remove (k' :: ks) m) with (delete k' (storage_remove ks m)).
    destruct (decide (k = k')) as [->|Hne].
    + rewrite lookup_delete_eq.
      rewrite decide_True by apply list_elem_of_here. reflexivity.
    + rewrite lookup_delete_ne by congruence.
      by rewrite (decide_ext _ _ _ _ (elem_of_cons_ne k k' ks Hne)), <- IH.
Qed.

Lemma lookup_storage_get_1 (k : string) (m : gmap string value) :
  storage_get [k] m !! k = m !! k.
Proof.
  rewrite lookup_storage_get.
  rewrite decide_True by apply list_elem_of_here. reflexivity.
Qed.

(** ** The session key *)

(** Unfolds the sequencing of asynchronous steps. *)
Ltac js_run :=
  unfold await, throw, try_catch, session_get, session_set, session_remove,
    local_get, local_set, local_remove, getRandomValues in *;
  unfold mbind, mret, js_mbind, js_mret, js_bind, js_ret in *.

Section key_lifecycle.
Context {P : Platform}.

Lemma getCryptoKey_run (w : world) :
  CredentialManager.getCryptoKey w =
    (match session w !! CredentialManager.SESSION_KEY_CRYPTO with
     | Some storedKey =>
         if truthy storedKey then
           match import_stored storedKey with
           | Ok key => Ok (Some key)
           | Throw e => Throw e
           end
         else Ok None
     | None => Ok None
     end,
     log (SessionGet CredentialManager.SESSION_KEY_CRYPTO) w).
Proof.
  unfold CredentialManager.getCryptoKey, import_stored. js_run.
  rewrite lookup_storage_get_1.
  destruct (session w !! _) as [v|]; [|reflexivity].
  destruct (truthy v); [|reflexivity].
  destruct (Uint8Array v) as [raw|]; [|reflexivity].
  destruct (importKey raw); reflexivity.
Qed.

Lemma getOrCreateCryptoKey_stored (w : world) (storedKey : value) :
  session w !! CredentialManager.SESSION_KEY_CRYPTO = Some storedKey ->
  truthy storedKey = true ->
  CredentialManager.getOrCreateCryptoKey w =
    (import_stored storedKey,
     log (SessionGet CredentialManager.SESSION_KEY_CRYPTO) w).
Proof.
  intros Hslot Htruthy.
  unfold CredentialManager.getOrCreateCryptoKey, import_stored. js_run.
  rewrite lookup_storage_get_1, Hslot, Htruthy.
  destruct (Uint8Array storedKey) as [raw|]; [|reflexivity].
  destruct (importKey raw); reflexivity.
Qed.

Lemma getOrCreateCryptoKey_fresh (w : world) :
  key_absent w ->
  CredentialManager.getOrCreateCryptoKey w = (Ok (minted_key w), minted_world w).
Proof.
  unfold key_absent, truthy_opt. intros Habsent.
  unfold CredentialManager.getOrCreateCryptoKey. js_run.
  rewrite lookup_storage_get_1.
  destruct (session w !! _) as [v|]; [rewrite Habsent|]; reflexivity.
Qed.


Lemma getOrCreateCryptoKey_active (w wk : world) (key : CryptoKey) :
  CredentialManager.getOrCreateCryptoKey w = (Ok key, wk) ->
  active_key wk = Some key /\ local wk = local w.
Proof.
  destruct (truthy_opt (session w !! CredentialManager.SESSION_KEY_CRYPTO))
    eqn:Hslot.
  - unfold truthy_opt in Hslot.
    destruct (session w !! CredentialManager.SESSION_KEY_CRYPTO)
      as [storedKey|] eqn:Hv; [|discriminate].
    rewrite (getOrCreateCryptoKey_stored w storedKey Hv Hslot).
    intros [= Himp <-]. split; [|reflexivity].
    unfold active_key. simpl. rewrite Hv, Hslot.
    unfold import_stored in Himp.
    destruct (Uint8Array storedKey) as [raw|]; [|discriminate].
    destruct (importKey raw); congruence.
  - rewrite (getOrCreateCryptoKey_fresh w Hslot).
    intros [= <- <-]. split; [|reflexivity].
    unfold active_key, minted_world. simpl.
    rewrite lookup_insert_eq. simpl.
    rewrite bytes_of_Array_from. apply import_export_generated.
Qed.

Lemma well_formed_key (w : world) :
  well_formed w ->
  (key_absent w <-> session w !! CredentialManager.SESSION_KEY_CRYPTO = None)
  /\ (active_key w = None
      <-> session w !! CredentialManager.SESSION_KEY_CRYPTO = None).
Proof.
  intros [Hkey _]. unfold key_absent, active_key, truthy_opt.
  destruct (session w !! CredentialManager.SESSION_KEY_CRYPTO)
    as [storedKey|]; [|tauto].
  destruct (Hkey storedKey eq_refl) as (key & -> & Himport).
  rewrite Uint8Array_Array_from, Himport. cbn [truthy Array_from].
  split; split; discriminate.
Qed.

(** C9. The read-only accessor [getCryptoKey], in the popup and in the
    service worker alike, returns the active key when the session-scoped
    store holds one and [null] when it holds none; in every case the only
    thing it does to the world is one read of the session-scoped store:
    both stores are left as they were, no entropy is drawn, nothing is
    written.  In a well-formed world (every world the extension reaches)
    these two cases are the only ones: the result is the active key, which
    is there exactly when the slot is filled. *)
Theorem getCryptoKey_read_only (w : world) :
  (forall key, active_key w = Some key ->
     fst (CredentialManager.getCryptoKey w) = Ok (Some key))
  /\ (key_absent w -> fst (CredentialManager.getCryptoKey w) = Ok None)
  /\ snd (CredentialManager.getCryptoKey w)
      = log (SessionGet CredentialManager.SESSION_KEY_CRYPTO) w
  /\ session (snd (CredentialManager.getCryptoKey w)) = session w
  /\ local (snd (CredentialManager.getCryptoKey w)) = local w
  /\ drawn (snd (CredentialManager.getCryptoKey w)) = drawn w
  /\ ServiceWorker.getCryptoKey w = CredentialManager.getCryptoKey w
  /\ (well_formed w ->
      fst (CredentialManager.getCryptoKey w) = Ok (active_key w)
      /\ (active_key w = None
          <-> session w !! CredentialManager.SESSION_KEY_CRYPTO = None)).
Proof.
  assert (forall key, active_key w = Some key ->
            fst (CredentialManager.getCryptoKey w) = Ok (Some key)) as Hsome.
  { rewrite getCryptoKey_run. cbn [fst].
    unfold active_key, import_stored. intros key Hkey.
    destruct (session w !! _) as [v|]; [|discriminate].
    destruct (truthy v); [|discriminate].
    destruct (Uint8Array v) as [raw|]; [|discriminate].
    now rewrite Hkey. }
  assert (key_absent w -> fst (CredentialManager.getCryptoKey w) = Ok None)
    as Hnone.
  { rewrite getCryptoKey_run. cbn [fst].
    unfold key_absent, truthy_opt. intros Habsent.
    destruct (session w !! _) as [v|]; [|reflexivity].
    now rewrite Habsent. }
  split; [exact Hsome|]. split; [exact Hnone|].
  split; [now rewrite getCryptoKey_run|].
  split; [now rewrite getCryptoKey_run|].
  split; [now rewrite getCryptoKey_run|].
  split; [now rewrite getCryptoKey_run|].
  split; [reflexivity|].
  intros Hwf. destruct (well_formed_key w Hwf) as [Habsent Hactive].
  split; [|exact Hactive].
  destruct (active_key w) as [key|] eqn:Hkey; [now apply Hsome|].
  apply Hnone, Habsent, Hactive. reflexivity.
Qed.

(** C8. When the session-scoped store already holds key bytes,
    [getOrCreateCryptoKey] returns the key imported from exactly those
    bytes and only reads the session-scoped store, so a second call gives
    the same result again; in any world, a call that returned a key is
    followed by a call that returns the same key; and a fresh key is minted
    and stored exactly when the store holds no key. *)
Theorem getOrCreateCryptoKey_keeps_stored_key (w : world) (storedKey : value) :
  session w !! CredentialManager.SESSION_KEY_CRYPTO = Some storedKey ->
  truthy storedKey = true ->
  fst (CredentialManager.getOrCreateCryptoKey w) = import_stored storedKey
  /\ snd (CredentialManager.getOrCreateCryptoKey w)
      = log (SessionGet CredentialManager.SESSION_KEY_CRYPTO) w
  /\ session (snd (CredentialManager.getOrCreateCryptoKey w)) = session w
  /\ fst (CredentialManager.getOrCreateCryptoKey
            (snd (CredentialManager.getOrCreateCryptoKey w)))
      = fst (CredentialManager.getOrCreateCryptoKey w)
  /\ (forall (w0 w1 : world) (key : CryptoKey),
        CredentialManager.getOrCreateCryptoKey w0 = (Ok key, w1) ->
        fst (CredentialManager.getOrCreateCryptoKey w1) = Ok key)
  /\ (forall w0 : world,
        key_absent w0 <->
        CredentialManager.getOrCreateCryptoKey w0
        = (Ok (minted_key w0), minted_world w0)).
Proof.
  intros Hslot Htruthy.
  rewrite (getOrCreateCryptoKey_stored w storedKey Hslot Htruthy).
  cbn [fst snd log session].
  split; [reflexivity|]. split; [reflexivity|]. split; [reflexivity|].
  split; [|split; [|split]].
  - now rewrite (getOrCreateCryptoKey_stored (log _ w) storedKey Hslot Htruthy).
  - intros w0 w1 key Hrun.
    destruct (getOrCreateCryptoKey_active w0 w1 key Hrun) as [Hactive _].
    unfold active_key in Hactive.
    destruct (session w1 !! CredentialManager.SESSION_KEY_CRYPTO)
      as [v|] eqn:Hv; [|discriminate].
    destruct (truthy v) eqn:Ht; [|discriminate].
    rewrite (getOrCreateCryptoKey_stored w1 v Hv Ht). unfold import_stored.
    destruct (Uint8Array v) as [raw|]; [|discriminate].
    now rewrite Hactive.
  - apply getOrCreateCryptoKey_fresh.
  - intros Hrun. unfold key_absent, truthy_opt.
    destruct (session w0 !! _) as [v|] eqn:Hv; [|reflexivity].
    destruct (truthy v) eqn:Ht; [|reflexivity].
    rewrite (getOrCreateCryptoKey_stored w0 v Hv Ht) in Hrun.
    apply (f_equal (fun r => length (trace (snd r)))) in Hrun.
    simpl in Hrun. lia.
Qed.

End key_lifecycle.

(** ** Reading the vault *)

Section vault_read.
Context {P : Platform}.

Lemma lookup_local_get (m : gmap string value) (k : string) :
  k ∈ LOCAL_KEYS -> storage_get LOCAL_KEYS m !! k = m !! k.
Proof. intros Hk. rewrite lookup_storage_get. now rewrite decide_True. Qed.

Lemma LOCAL_KEYS_elem (k : string) :
  k ∈ LOCAL_KEYS <->
  k = CredentialManager.STORAGE_KEY_COMPANY
  \/ k = CredentialManager.STORAGE_KEY_EMPLOYEE
  \/ k = CredentialManager.STORAGE_KEY_PASSWORD
  \/ k = CredentialManager.STORAGE_KEY_IV.
Proof.
  unfold LOCAL_KEYS. rewrite !elem_of_cons, elem_of_nil. tauto.
Qed.

Lemma field_missing_iff (w : world) :
  field_missing w <-> fields_truthy w = false.
Proof.
  unfold field_missing, fields_truthy. split.
  - intros (k & Hk & Hfalsy).
    apply LOCAL_KEYS_elem in Hk as [-> | [-> | [-> | ->]]];
      rewrite Hfalsy; rewrite ?andb_false_r; reflexivity.
  - rewrite !andb_false_iff. intros [[[Hf|Hf]|Hf]|Hf];
      eexists; (split; [apply LOCAL_KEYS_elem | exact Hf]); auto.
Qed.

Lemma get_run (w : world) :
  CredentialManager.get w =
    match session w !! CredentialManager.SESSION_KEY_CRYPTO with
    | Some storedKey =>
        if truthy storedKey then
          match import_stored storedKey with
          | Ok _ =>
              (Ok (if fields_truthy w then stored_credential w else None),
               log (LocalGet LOCAL_KEYS)
                 (log (SessionGet CredentialManager.SESSION_KEY_CRYPTO) w))
          | Throw _ =>
              (Ok None, log (SessionGet CredentialManager.SESSION_KEY_CRYPTO) w)
          end
        else (Ok None, log (SessionGet CredentialManager.SESSION_KEY_CRYPTO) w)
    | None => (Ok None, log (SessionGet CredentialManager.SESSION_KEY_CRYPTO) w)
    end.
Proof.
  unfold CredentialManager.get, try_catch.
  unfold mbind at 1. unfold js_mbind, js_bind.
  rewrite getCryptoKey_run.
  unfold stored_credential, decrypt_stored, active_key, fields_truthy.
  destruct (session w !! _) as [storedKey|]; [|reflexivity].
  destruct (truthy storedKey); [|reflexivity].
  unfold import_stored.
  destruct (Uint8Array storedKey) as [raw|]; [|reflexivity].
  destruct (importKey raw) as [key|]; [|reflexivity].
  unfold CredentialManager.decryptPassword. js_run. simpl.
  fold LOCAL_KEYS.
  rewrite !lookup_local_get by (apply LOCAL_KEYS_elem; auto).
  destruct (local w !! CredentialManager.STORAGE_KEY_COMPANY) as [c|];
    [|reflexivity].
  destruct (local w !! CredentialManager.STORAGE_KEY_EMPLOYEE) as [e|];
    [|simpl; rewrite ?andb_false_r; reflexivity].
  destruct (local w !! CredentialManager.STORAGE_KEY_PASSWORD) as [p|];
    [|simpl; rewrite ?andb_false_r; reflexivity].
  destruct (local w !! CredentialManager.STORAGE_KEY_IV) as [i|];
    [|simpl; rewrite ?andb_false_r; reflexivity].
  simpl. destruct (truthy c && truthy e && truthy p && truthy i);
    [|reflexivity].
  destruct (Uint8Array i) as [iv8|]; [|reflexivity].
  destruct (Uint8Array p) as [data8|]; [|reflexivity].
  destruct (decrypt key iv8 data8); reflexivity.
Qed.

Lemma stored_credential_None (w : world) :
  fields_truthy w = true ->
  stored_credential w = None <-> decryption_fails w.
Proof.
  unfold fields_truthy, stored_credential, decryption_fails, truthy_opt.
  rewrite !andb_true_iff. intros (((Hc & He) & _) & _).
  destruct (local w !! CredentialManager.STORAGE_KEY_COMPANY); [|discriminate].
  destruct (local w !! CredentialManager.STORAGE_KEY_EMPLOYEE); [|discriminate].
  destruct (decrypt_stored w); split; congruence.
Qed.

Lemma active_key_import (w : world) (storedKey : value) :
  session w !! CredentialManager.SESSION_KEY_CRYPTO = Some storedKey ->
  truthy storedKey = true ->
  import_stored storedKey
  = match active_key w with Some key => Ok key | None => import_stored storedKey end
  /\ (active_key w = None -> exists e, import_stored storedKey = Throw e).
Proof.
  intros Hslot Ht. unfold active_key, import_stored. rewrite Hslot, Ht.
  destruct (Uint8Array storedKey) as [raw|]; [|split; eauto].
  destruct (importKey raw); split; eauto; discriminate.
Qed.

Lemma well_formed_fields (w : world) :
  well_formed w ->
  field_missing w <-> exists k, k ∈ LOCAL_KEYS /\ local w !! k = None.
Proof.
  intros [_ Hfields]. unfold field_missing, truthy_opt. split.
  - intros (k & Hk & Hfalsy). exists k. split; [exact Hk|].
    destruct (local w !! k) as [v|] eqn:Hv; [|reflexivity].
    rewrite (Hfields k v Hk Hv) in Hfalsy. discriminate.
  - intros (k & Hk & Hnone). exists k. split; [exact Hk|]. now rewrite Hnone.
Qed.

Lemma get_characterised (w : world) :
  exists r : option Credential,
    CredentialManager.get w
    = (Ok r, if truthy_opt (session w !! CredentialManager.SESSION_KEY_CRYPTO)
             then snd (CredentialManager.get w)
             else log (SessionGet CredentialManager.SESSION_KEY_CRYPTO) w)
    /\ (r = None <-> key_absent w \/ field_missing w \/ decryption_fails w).
Proof.
  rewrite get_run. unfold key_absent, truthy_opt.
  destruct (session w !! CredentialManager.SESSION_KEY_CRYPTO)
    as [storedKey|] eqn:Hslot.
  2:{ exists None. split; auto. tauto. }
  destruct (truthy storedKey) eqn:Ht.
  2:{ exists None. split; auto. tauto. }
  destruct (active_key_import w storedKey Hslot Ht) as [Himp Hnone].
  destruct (import_stored storedKey) as [key|e] eqn:Hi.
  2:{ exists None. split; auto. split; auto.
      intros _. right; right. unfold decryption_fails, decrypt_stored.
      destruct (active_key w); [discriminate|reflexivity]. }
  simpl. destruct (fields_truthy w) eqn:Hf.
  - exists (stored_credential w). split; auto. split.
    + intros Hr. right; right. now apply stored_credential_None.
    + intros [Hk | [Hm | Hd]].
      * discriminate.
      * apply field_missing_iff in Hm. congruence.
      * now apply stored_credential_None.
  - exists None. split; auto. split; auto.
    intros _. right; left. now apply field_missing_iff.
Qed.

(** C2. In every state of the two stores [get] (and the service worker's
    [getCredentials], which is the same function) returns without raising,
    and what it returns is [null] exactly when no session key is stored, or
    one of the four persisted fields is missing, or the stored ciphertext
    cannot be decrypted with the stored key.  When no key is stored the
    only storage call it makes is the read of the session-scoped store:
    the persistent store is not read.  "Absent" and "missing" are the
    code's own test, [!x]; in a well-formed world (every world the
    extension reaches) they mean that nothing is stored under the key. *)
Theorem get_null_exactly_when_unavailable (w : world) :
  exists r : option Credential,
    fst (CredentialManager.get w) = Ok r
    /\ fst (ServiceWorker.getCredentials w) = Ok r
    /\ (r = None <-> key_absent w \/ field_missing w \/ decryption_fails w)
    /\ (key_absent w ->
        snd (CredentialManager.get w)
        = log (SessionGet CredentialManager.SESSION_KEY_CRYPTO) w
        /\ snd (ServiceWorker.getCredentials w)
          = log (SessionGet CredentialManager.SESSION_KEY_CRYPTO) w)
    /\ (well_formed w ->
        (key_absent w
         <-> session w !! CredentialManager.SESSION_KEY_CRYPTO = None)
        /\ (field_missing w
            <-> exists k, k ∈ LOCAL_KEYS /\ local w !! k = None)).
Proof.
  destruct (get_characterised w) as (r & Hrun & Hiff).
  exists r.
  change (ServiceWorker.getCredentials w) with (CredentialManager.get w).
  rewrite Hrun. cbn [fst snd].
  split; [reflexivity|]. split; [reflexivity|]. split; [exact Hiff|].
  split.
  - intros Habsent. unfold key_absent in Habsent. rewrite Habsent.
    split; reflexivity.
  - intros Hwf. split; [apply (well_formed_key w Hwf)|].
    apply well_formed_fields, Hwf.
Qed.

Lemma getSavedCodes_run (w : world) :
  CredentialManager.getSavedCodes w =
    (Ok match local w !! CredentialManager.STORAGE_KEY_COMPANY,
              local w !! CredentialManager.STORAGE_KEY_EMPLOYEE with
        | Some companyCode, Some employeeCode =>
            if truthy companyCode && truthy employeeCode
            then Some (Build_SavedCodes companyCode employeeCode)
            else None
        | _, _ => None
        end,
     log (LocalGet [CredentialManager.STORAGE_KEY_COMPANY;
                    CredentialManager.STORAGE_KEY_EMPLOYEE]) w).
Proof.
  unfold CredentialManager.getSavedCodes. js_run.
  rewrite !lookup_storage_get.
  rewrite !decide_True by (rewrite !elem_of_cons; auto).
  destruct (local w !! CredentialManager.STORAGE_KEY_COMPANY) as [c|];
    [|reflexivity].
  destruct (local w !! CredentialManager.STORAGE_KEY_EMPLOYEE) as [e|];
    [|reflexivity].
  destruct (truthy c && truthy e); reflexivity.
Qed.

End vault_read.

(** ** Writing the vault *)

Section vault_write.
Context {P : Platform}.

Lemma lookup_saved_items (c e : string) (enc iv : value) (m : gmap string value) :
  storage_set (saved_items c e enc iv) m
    !! CredentialManager.STORAGE_KEY_COMPANY = Some (VStr c)
  /\ storage_set (saved_items c e enc iv) m
       !! CredentialManager.STORAGE_KEY_EMPLOYEE = Some (VStr e)
  /\ storage_set (saved_items c e enc iv) m
       !! CredentialManager.STORAGE_KEY_PASSWORD = Some enc
  /\ storage_set (saved_items c e enc iv) m
       !! CredentialManager.STORAGE_KEY_IV = Some iv.
Proof.
  unfold storage_set, saved_items. cbn [foldl fst snd].
  repeat split.
  - do 3 (rewrite lookup_insert_ne by discriminate). apply lookup_insert_eq.
  - do 2 (rewrite lookup_insert_ne by discriminate). apply lookup_insert_eq.
  - rewrite lookup_insert_ne by discriminate. apply lookup_insert_eq.
  - apply lookup_insert_eq.
Qed.

Lemma encryptPassword_run (p : string) (key : CryptoKey) (w : world) :
  CredentialManager.encryptPassword p key w =
    (match encrypt key (next_iv w) (encode p) with
     | Some ct => Ok (Array_from ct, Array_from (next_iv w))
     | None => Throw OperationError
     end, after_draw 12 w).
Proof.
  unfold CredentialManager.encryptPassword, next_iv, after_draw. js_run.
  destruct (encrypt key _ (encode p)); reflexivity.
Qed.

Lemma save_run (c e p : string) (w : world) :
  CredentialManager.save c e p w =
    if CredentialManager.isValidCompanyCode c
       && CredentialManager.isValidEmployeeCode e
       && negb (String.eqb p "")
    then
      match CredentialManager.getOrCreateCryptoKey w with
      | (Ok key, wk) =>
          match encrypt key (next_iv wk) (encode p) with
          | Some ct =>
              let items := saved_items c e (Array_from ct)
                             (Array_from (next_iv wk)) in
              (Ok true,
               log (LocalSet items)
                 (with_local (storage_set items (local wk)) (after_draw 12 wk)))
          | None => (Ok false, after_draw 12 wk)
          end
      | (Throw _, wk) => (Ok false, wk)
      end
    else (Ok false, w).
Proof.
  unfold CredentialManager.save, try_catch.
  destruct (CredentialManager.isValidCompanyCode c); [|reflexivity].
  destruct (CredentialManager.isValidEmployeeCode e); [|reflexivity].
  destruct (String.eqb p ""); [reflexivity|]. cbn [negb andb].
  unfold mbind, js_mbind, js_bind.
  destruct (CredentialManager.getOrCreateCryptoKey w) as [[key|ex] wk];
    [|reflexivity].
  rewrite encryptPassword_run.
  destruct (encrypt key (next_iv wk) (encode p)); reflexivity.
Qed.

Lemma save_success (c e p : string) (w w' : world) :
  CredentialManager.save c e p w = (Ok true, w') ->
  CredentialManager.isValidCompanyCode c = true
  /\ CredentialManager.isValidEmployeeCode e = true
  /\ p <> ""
  /\ exists (key : CryptoKey) (wk : world) (ct : list byte),
       CredentialManager.getOrCreateCryptoKey w = (Ok key, wk)
       /\ encrypt key (next_iv wk) (encode p) = Some ct
       /\ local w' = storage_set
                       (saved_items c e (Array_from ct) (Array_from (next_iv wk)))
                       (local wk)
       /\ session w' = session wk.
Proof.
  rewrite save_run.
  destruct (CredentialManager.isValidCompanyCode c); [|intros [= ]].
  destruct (CredentialManager.isValidEmployeeCode e); [|intros [= ]].
  destruct (String.eqb_spec p ""); [intros [= ]|]. cbn [negb andb].
  destruct (CredentialManager.getOrCreateCryptoKey w) as [[key|ex] wk];
    [|intros [= ]].
  destruct (encrypt key (next_iv wk) (encode p)) as [ct|] eqn:Hct;
    [|intros [= ]].
  intros [= <-]. repeat split; auto.
  exists key, wk, ct. repeat split; auto.
Qed.

Lemma active_key_ext (w1 w2 : world) :
  session w1 !! CredentialManager.SESSION_KEY_CRYPTO
  = session w2 !! CredentialManager.SESSION_KEY_CRYPTO ->
  active_key w1 = active_key w2.
Proof. unfold active_key. now intros ->. Qed.

Lemma get_with_key (w : world) (key : CryptoKey) :
  active_key w = Some key ->
  fst (CredentialManager.get w)
  = Ok (if fields_truthy w then stored_credential w else None).
Proof.
  intros Hkey. rewrite get_run. unfold active_key, import_stored in *.
  destruct (session w !! _) as [storedKey|]; [|discriminate].
  destruct (truthy storedKey); [|discriminate].
  destruct (Uint8Array storedKey) as [raw|]; [|discriminate].
  now rewrite Hkey.
Qed.



(** C3. A company code that does not match [^\d{1,5}$], an employee code
    that does not match [^\d{1,10}$], or an empty password makes [save]
    return failure without touching the world: no field is written, no key
    is minted, no storage call is made at all. *)
Theorem save_rejects_invalid_input (c e p : string) (w : world) :
  CredentialManager.isValidCompanyCode c = false
  \/ CredentialManager.isValidEmployeeCode e = false
  \/ p = "" ->
  CredentialManager.save c e p w = (Ok false, w).
Proof.
  unfold CredentialManager.save, try_catch.
  intros [Hc | [He | ->]].
  - now rewrite Hc.
  - rewrite He. now destruct (CredentialManager.isValidCompanyCode c).
  - destruct (CredentialManager.isValidCompanyCode c); [|reflexivity].
    now destruct (CredentialManager.isValidEmployeeCode e).
Qed.

(** C7. LOCKED: after a successful [save], in any world where the persisted
    fields are still the saved ones but the session-scoped store holds no
    key, [get] returns [null] while [getSavedCodes] still returns the saved
    pair; and in every world the result of [getSavedCodes] is the same
    whatever the session-scoped store holds. *)
Theorem locked_state_keeps_saved_codes (c e p : string) (w w1 w2 : world) :
  CredentialManager.save c e p w = (Ok true, w1) ->
  local w2 = local w1 ->
  key_absent w2 ->
  fst (CredentialManager.get w2) = Ok None
  /\ fst (CredentialManager.getSavedCodes w2)
     = Ok (Some {| saved_companyCode := VStr c; saved_employeeCode := VStr e |})
  /\ (forall (w0 : world) (s : gmap string value),
        fst (CredentialManager.getSavedCodes (with_session s w0))
        = fst (CredentialManager.getSavedCodes w0)).
Proof.
  intros Hsave Hlocal Habsent.
  destruct (save_success c e p w w1 Hsave)
    as (Hc & He & _ & key & wk & ct & _ & _ & Hl & _).
  destruct (lookup_saved_items c e (Array_from ct) (Array_from (next_iv wk))
              (local wk)) as (Lc & Le & _ & _).
  rewrite <- Hl, <- Hlocal in Lc, Le.
  repeat split.
  - rewrite get_run. unfold key_absent, truthy_opt in Habsent.
    destruct (session w2 !! _) as [v|]; [|reflexivity].
    now rewrite Habsent.
  - rewrite getSavedCodes_run, Lc, Le. cbn [fst].
    assert (truthy (VStr c) = true) as ->
      by (apply truthy_VStr; eapply test_digits_nonempty; exact Hc).
    assert (truthy (VStr e) = true) as ->
      by (apply truthy_VStr; eapply test_digits_nonempty; exact He).
    reflexivity.
  - intros w0 s. now rewrite !getSavedCodes_run.
Qed.

Lemma clear_run (w : world) :
  CredentialManager.clear w =
    (Ok true,
     log (SessionRemove CredentialManager.SESSION_KEY_CRYPTO)
       (with_session
          (storage_remove [CredentialManager.SESSION_KEY_CRYPTO] (session w))
          (log (LocalRemove LOCAL_KEYS)
             (with_local (storage_remove LOCAL_KEYS (local w)) w)))).
Proof. reflexivity. Qed.

(** C6. When [clear] reports success, none of the five persisted items is
    left (the four fields of the persistent store and the key of the
    session-scoped store), and right after it [get] returns [null],
    [exists] returns false and [getSavedCodes] returns [null]. *)
Theorem clear_removes_all_five_items (w w' : world) :
  CredentialManager.clear w = (Ok true, w') ->
  (forall k, k ∈ LOCAL_KEYS -> local w' !! k = None)
  /\ session w' !! CredentialManager.SESSION_KEY_CRYPTO = None
  /\ fst (CredentialManager.get w') = Ok None
  /\ fst (CredentialManager.exists_ w') = Ok false
  /\ fst (CredentialManager.getSavedCodes w') = Ok None.
Proof.
  rewrite clear_run. intros [= <-].
  assert (forall m, storage_remove [CredentialManager.SESSION_KEY_CRYPTO] m
                      !! CredentialManager.SESSION_KEY_CRYPTO = None) as Hkey.
  { intros m. rewrite lookup_storage_remove.
    rewrite decide_True by apply list_elem_of_here. reflexivity. }
  assert (forall m k, k ∈ LOCAL_KEYS -> storage_remove LOCAL_KEYS m !! k = None)
    as Hfields.
  { intros m k Hk. rewrite lookup_storage_remove. now rewrite decide_True. }
  assert (forall w0, session w0 !! CredentialManager.SESSION_KEY_CRYPTO = None ->
                     CredentialManager.get w0
                     = (Ok None,
                        log (SessionGet CredentialManager.SESSION_KEY_CRYPTO) w0))
    as Hget.
  { intros w0 Hnone. rewrite get_run. now rewrite Hnone. }
  split; [intros k Hk; apply Hfields, Hk|].
  split; [apply Hkey|].
  split; [rewrite Hget by apply Hkey; reflexivity|].
  split.
  - unfold CredentialManager.exists_, mbind, js_mbind, js_bind.
    rewrite Hget by apply Hkey. reflexivity.
  - rewrite getSavedCodes_run. cbn [fst local log with_session with_local].
    rewrite Hfields by (apply LOCAL_KEYS_elem; auto). reflexivity.
Qed.

End vault_write.

(** ** The access gate *)

Section access_gate.
Context {P : Platform}.

Lemma own_id_false (sender : MessageSender) :
  foreign_sender sender -> ServiceWorker.own_id sender = false.
Proof.
  unfold foreign_sender, ServiceWorker.own_id.
  destruct (sender_id sender) as [id|]; [|reflexivity].
  destruct (String.eqb_spec id runtime_id); [congruence|reflexivity].
Qed.

Lemma isValidSender_denies (sender : MessageSender) :
  foreign_sender sender \/ untrusted_page sender ->
  ServiceWorker.isValidSender sender = false.
Proof.
  unfold ServiceWorker.isValidSender.
  intros [Hid | (url & Hurl & Hne & Hprefix)].
  - now rewrite own_id_false.
  - destruct (ServiceWorker.own_id sender); [|reflexivity].
    rewrite Hurl. destruct (String.eqb_spec url ""); [congruence|].
    exact Hprefix.
Qed.

(** C4. A message whose sender lacks the extension's own id, or carries a
    page URL that does not start with [https://kinrouap1.hr44.jp/], is
    answered [null] whatever its type (GET_CREDENTIALS and GET_SAVED_CODES
    included); the listener leaves the world as it found it, so no storage
    call is made, and the answer is the same in every state of the stores. *)
Theorem untrusted_sender_gets_null
    (message_type : string) (sender : MessageSender) (w : world) :
  foreign_sender sender \/ untrusted_page sender ->
  ServiceWorker.onMessage message_type sender w
  = (Ok {| sent := Some Null; returned := Some false |}, w)
  /\ (forall w0 : world,
        fst (ServiceWorker.onMessage message_type sender w0)
        = fst (ServiceWorker.onMessage message_type sender w)).
Proof.
  intros Hdenied. unfold ServiceWorker.onMessage.
  rewrite (isValidSender_denies sender Hdenied). split; reflexivity.
Qed.

(** C5 (the code at the failing input). A sender with the extension's own
    id that reports the URL of one of the extension's own pages is refused
    by [isValidSender], and its GET_SAVED_CODES request is answered [null];
    only a sender with the extension's own id and no URL at all is let
    through without a look at a URL. *)
Theorem extension_page_with_url_is_denied (path : string) (w : world) :
  ServiceWorker.isValidSender (extension_page path) = false
  /\ ServiceWorker.onMessage "GET_SAVED_CODES" (extension_page path) w
     = (Ok {| sent := Some Null; returned := Some false |}, w)
  /\ ServiceWorker.isValidSender
       {| sender_id := Some runtime_id; sender_url := None |} = true.
Proof.
  assert (ServiceWorker.isValidSender (extension_page path) = false) as Hdenied.
  { unfold ServiceWorker.isValidSender, ServiceWorker.own_id, extension_page.
    cbn [sender_id sender_url]. rewrite String.eqb_refl. reflexivity. }
  split; [exact Hdenied|]. split.
  - unfold ServiceWorker.onMessage. now rewrite Hdenied.
  - unfold ServiceWorker.isValidSender, ServiceWorker.own_id.
    cbn [sender_id sender_url]. now rewrite String.eqb_refl.
Qed.

(** C10. In every state of the world the service worker's [getCredentials]
    and [getSavedCodes] do what the popup's [CredentialManager.get] and
    [CredentialManager.getSavedCodes] do: same result, same storage calls,
    under the same storage keys. *)
Theorem service_worker_reads_agree_with_popup (w : world) :
  ServiceWorker.getCredentials w = CredentialManager.get w
  /\ ServiceWorker.getSavedCodes w = CredentialManager.getSavedCodes w
  /\ ServiceWorker.STORAGE_KEY_COMPANY = CredentialManager.STORAGE_KEY_COMPANY
  /\ ServiceWorker.STORAGE_KEY_EMPLOYEE = CredentialManager.STORAGE_KEY_EMPLOYEE
  /\ ServiceWorker.STORAGE_KEY_PASSWORD = CredentialManager.STORAGE_KEY_PASSWORD
  /\ ServiceWorker.STORAGE_KEY_IV = CredentialManager.STORAGE_KEY_IV
  /\ ServiceWorker.SESSION_KEY_CRYPTO = CredentialManager.SESSION_KEY_CRYPTO.
Proof.
  assert (ServiceWorker.getCryptoKey = CredentialManager.getCryptoKey) as Hkey
    by reflexivity.
  assert (ServiceWorker.decryptPassword = CredentialManager.decryptPassword)
    as Hdecrypt by reflexivity.
  split.
  - unfold ServiceWorker.getCredentials, CredentialManager.get.
    now rewrite Hkey, Hdecrypt.
  - split; [|repeat split].
    unfold ServiceWorker.getSavedCodes, CredentialManager.getSavedCodes.
    reflexivity.
Qed.

End access_gate.

(** ** The worlds the extension can reach *)

Section reachable_worlds.
Context {P : Platform}.

(** Same stores, same judgement. *)
Lemma well_formed_same_stores (w w' : world) :
  local w' = local w -> session w' = session w ->
  well_formed w -> well_formed w'.
Proof. unfold well_formed. now intros -> ->. Qed.

Lemma get_frame (w : world) :
  local (snd (CredentialManager.get w)) = local w
  /\ session (snd (CredentialManager.get w)) = session w.
Proof.
  rewrite get_run.
  destruct (session w !! _) as [v|]; [|split; reflexivity].
  destruct (truthy v); [|split; reflexivity].
  destruct (import_stored v); split; reflexivity.
Qed.

Lemma getSavedCodes_frame (w : world) :
  local (snd (CredentialManager.getSavedCodes w)) = local w
  /\ session (snd (CredentialManager.getSavedCodes w)) = session w.
Proof. rewrite getSavedCodes_run. split; reflexivity. Qed.

Lemma exists_frame (w : world) :
  local (snd (CredentialManager.exists_ w)) = local w
  /\ session (snd (CredentialManager.exists_ w)) = session w.
Proof.
  unfold CredentialManager.exists_, mbind, js_mbind, js_bind.
  pose proof (get_frame w) as Hframe.
  destruct (CredentialManager.get w) as [[r|ex] w']; exact Hframe.
Qed.

Lemma onMessage_frame (message_type : string) (sender : MessageSender)
    (w : world) :
  local (snd (ServiceWorker.onMessage message_type sender w)) = local w
  /\ session (snd (ServiceWorker.onMessage message_type sender w)) = session w.
Proof.
  unfold ServiceWorker.onMessage.
  destruct (ServiceWorker.isValidSender sender); cbn [negb];
    [|split; reflexivity].
  destruct (String.eqb message_type "GET_CREDENTIALS").
  - unfold mbind, js_mbind, js_bind.
    change (ServiceWorker.getCredentials w) with (CredentialManager.get w).
    pose proof (get_frame w) as Hframe.
    destruct (CredentialManager.get w) as [[r|ex] w']; exact Hframe.
  - destruct (String.eqb message_type "GET_SAVED_CODES"); [|split; reflexivity].
    unfold mbind, js_mbind, js_bind.
    change (ServiceWorker.getSavedCodes w)
      with (CredentialManager.getSavedCodes w).
    rewrite getSavedCodes_run. split; reflexivity.
Qed.

Lemma getOrCreateCryptoKey_well_formed (w : world) :
  well_formed w ->
  well_formed (snd (CredentialManager.getOrCreateCryptoKey w)).
Proof.
  intros Hwf.
  destruct (truthy_opt (session w !! CredentialManager.SESSION_KEY_CRYPTO))
    eqn:Hslot.
  - unfold truthy_opt in Hslot.
    destruct (session w !! CredentialManager.SESSION_KEY_CRYPTO)
      as [storedKey|] eqn:Hv; [|discriminate].
    rewrite (getOrCreateCryptoKey_stored w storedKey Hv Hslot).
    now apply (well_formed_same_stores w).
  - rewrite (getOrCreateCryptoKey_fresh w Hslot).
    destruct Hwf as [_ Hfields]. split; [|exact Hfields].
    cbn [snd session minted_world]. intros storedKey.
    rewrite lookup_insert_eq. intros [= <-].
    exists (minted_key w). split; [reflexivity|].
    apply import_export_generated.
Qed.

Lemma save_well_formed (c e p : string) (w : world) :
  well_formed w -> well_formed (snd (CredentialManager.save c e p w)).
Proof.
  intros Hwf. rewrite save_run.
  destruct (CredentialManager.isValidCompanyCode c) eqn:Hc; [|exact Hwf].
  destruct (CredentialManager.isValidEmployeeCode e) eqn:He; [|exact Hwf].
  destruct (negb (String.eqb p "")); [|exact Hwf]. cbn [andb].
  pose proof (getOrCreateCryptoKey_well_formed w Hwf) as Hwk.
  destruct (CredentialManager.getOrCreateCryptoKey w) as [[key|ex] wk];
    cbn [snd] in *; [|exact Hwk].
  destruct (encrypt key (next_iv wk) (encode p)) as [ct|];
    [|now apply (well_formed_same_stores wk)].
  destruct Hwk as [Hkey _]. split; [exact Hkey|].
  cbn [snd local log with_local]. intros k v Hk.
  destruct (lookup_saved_items c e (Array_from ct) (Array_from (next_iv wk))
              (local wk)) as (Lc & Le & Lp & Li).
  apply LOCAL_KEYS_elem in Hk as [-> | [-> | [-> | ->]]].
  - rewrite Lc. intros [= <-].
    apply truthy_VStr. eapply test_digits_nonempty. exact Hc.
  - rewrite Le. intros [= <-].
    apply truthy_VStr. eapply test_digits_nonempty. exact He.
  - rewrite Lp. now intros [= <-].
  - rewrite Li. now intros [= <-].
Qed.

Lemma clear_well_formed (w : world) :
  well_formed (snd (CredentialManager.clear w)).
Proof.
  rewrite clear_run. split; cbn [snd local session log with_session with_local].
  - intros storedKey. rewrite lookup_storage_remove.
    rewrite decide_True by apply list_elem_of_here. discriminate.
  - intros k v Hk. rewrite lookup_storage_remove.
    rewrite decide_True by exact Hk. discriminate.
Qed.

(** Every world the extension can reach is well formed. *)
Lemma reachable_well_formed (w : world) : reachable w -> well_formed w.
Proof.
  induction 1 as [e | c e p w _ IH | w _ IH | w _ IH | w _ IH | w _ IH
                  | message_type sender w _ IH | w _ IH].
  - split; cbn [local session]; intros *; rewrite ?lookup_empty; discriminate.
  - now apply save_well_formed.
  - destruct (get_frame w). now apply (well_formed_same_stores w).
  - destruct (getSavedCodes_frame w). now apply (well_formed_same_stores w).
  - destruct (exists_frame w). now apply (well_formed_same_stores w).
  - apply clear_well_formed.
  - destruct (onMessage_frame message_type sender w).
    now apply (well_formed_same_stores w).
  - destruct IH as [_ Hfields]. split; [|exact Hfields].
    cbn [session with_session]. intros storedKey. rewrite lookup_empty.
    discriminate.
Qed.

End reachable_worlds.

(** ** The properties on the reference platform *)

Section on_reference_platform.
#[local] Existing Instance Reference.platform.

Example company_code_examples :
  CredentialManager.isValidCompanyCode "12345" = true
  /\ CredentialManager.isValidCompanyCode "123456" = false
  /\ CredentialManager.isValidCompanyCode "12a" = false
  /\ CredentialManager.isValidCompanyCode "" = false.
Proof. repeat split. Qed.

Example employee_code_examples :
  CredentialManager.isValidEmployeeCode "0123456789" = true
  /\ CredentialManager.isValidEmployeeCode "12345678901" = false
  /\ CredentialManager.isValidEmployeeCode "12 34" = false.
Proof. repeat split. Qed.

Example saved_world_reachable : reachable Reference.saved_world.
Proof. apply reachable_save, reachable_install. Qed.

Example locked_world_reachable : reachable Reference.locked_world.
Proof. apply reachable_restart, saved_world_reachable. Qed.

Example trusted_page_gets_credentials :
  fst (ServiceWorker.onMessage "GET_CREDENTIALS"
         {| sender_id := Some runtime_id;
            sender_url := Some "https://kinrouap1.hr44.jp/kinrou/kojin/" |}
         Reference.saved_world)
  = Ok {| sent := Some (Credentials
                          {| companyCode := VStr "12345";
                             employeeCode := VStr "0042";
                             password := "hunter2" |});
          returned := Some true |}.
Proof. vm_compute. reflexivity. Qed.

Example sender_without_url_gets_saved_codes :
  fst (ServiceWorker.onMessage "GET_SAVED_CODES"
         {| sender_id := Some runtime_id; sender_url := None |}
         Reference.locked_world)
  = Ok {| sent := Some (Codes {| saved_companyCode := VStr "12345";
                                 saved_employeeCode := VStr "0042" |});
          returned := Some true |}.
Proof. vm_compute. reflexivity. Qed.



(** A password that is one unpaired surrogate is read back as U+FFFD. *)
Example unpaired_surrogate_is_replaced :
  fst (CredentialManager.get (P:=Reference.platform)
         (snd (CredentialManager.save "1" "1" Reference.surrogate_password
                 Reference.fresh_world)))
  = Ok (Some {| companyCode := VStr "1"; employeeCode := VStr "1";
                password := string_of_list_byte REPLACEMENT |}).
Proof. vm_compute. reflexivity. Qed.

Lemma save_rejects_invalid_input_witness :
  CredentialManager.save (P:=Reference.platform) "123456" "0042" "hunter2"
    Reference.saved_world
  = (Ok false, Reference.saved_world).
Proof.
  apply (@save_rejects_invalid_input Reference.platform).
  left. reflexivity.
Defined.

Lemma untrusted_sender_gets_null_witness :
  ServiceWorker.onMessage (P:=Reference.platform) "GET_CREDENTIALS"
    Reference.foreign_page Reference.saved_world
  = (Ok {| sent := Some Null; returned := Some false |}, Reference.saved_world).
Proof.
  apply (@untrusted_sender_gets_null Reference.platform).
  right. exists "https://example.com/login".
  split; [reflexivity|]. split; [discriminate|reflexivity].
Defined.

Lemma clear_removes_all_five_items_witness :
  fst (CredentialManager.get (P:=Reference.platform)
         (snd (CredentialManager.clear Reference.saved_world))) = Ok None
  /\ fst (CredentialManager.getSavedCodes
            (snd (CredentialManager.clear Reference.saved_world))) = Ok None.
Proof.
  destruct (@clear_removes_all_five_items Reference.platform
              Reference.saved_world
              (snd (CredentialManager.clear Reference.saved_world)) eq_refl)
    as (_ & _ & Hget & _ & Hcodes).
  split; [exact Hget | exact Hcodes].
Defined.

Lemma locked_state_keeps_saved_codes_witness :
  fst (CredentialManager.get (P:=Reference.platform) Reference.locked_world)
  = Ok None
  /\ fst (CredentialManager.getSavedCodes Reference.locked_world)
     = Ok (Some {| saved_companyCode := VStr "12345";
                   saved_employeeCode := VStr "0042" |}).
Proof.
  destruct (@locked_state_keeps_saved_codes Reference.platform
              "12345" "0042" "hunter2" Reference.fresh_world
              Reference.saved_world Reference.locked_world)
    as (Hget & Hcodes & _).
  - vm_compute. reflexivity.
  - reflexivity.
  - reflexivity.
  - split; [exact Hget | exact Hcodes].
Defined.

Lemma getOrCreateCryptoKey_keeps_stored_key_witness :
  fst (CredentialManager.getOrCreateCryptoKey (P:=Reference.platform)
         Reference.saved_world)
  = Ok (minted_key Reference.fresh_world)
  /\ session (snd (CredentialManager.getOrCreateCryptoKey
                     (P:=Reference.platform) Reference.saved_world))
     = session Reference.saved_world.
Proof.
  destruct (@getOrCreateCryptoKey_keeps_stored_key Reference.platform
              Reference.saved_world
              (Array_from (exportKey (minted_key Reference.fresh_world))))
    as (Hkey & _ & Hsession & _).
  - vm_compute. reflexivity.
  - reflexivity.
  - split; [|exact Hsession].
    rewrite Hkey. vm_compute. reflexivity.
Defined.

End on_reference_platform.

(** * Further properties of the vault *)

Section vault_cases.
Context {P : Platform}.

(** The two ways [getOrCreateCryptoKey] can go. *)
Lemma getOrCreateCryptoKey_cases (w : world) :
  (exists storedKey,
     session w !! CredentialManager.SESSION_KEY_CRYPTO = Some storedKey
     /\ truthy storedKey = true
     /\ CredentialManager.getOrCreateCryptoKey w
        = (import_stored storedKey,
           log (SessionGet CredentialManager.SESSION_KEY_CRYPTO) w))
  \/ (key_absent w
      /\ CredentialManager.getOrCreateCryptoKey w
         = (Ok (minted_key w), minted_world w)).
Proof.
  destruct (truthy_opt (session w !! CredentialManager.SESSION_KEY_CRYPTO))
    eqn:Hslot.
  - left. unfold truthy_opt in Hslot.
    destruct (session w !! CredentialManager.SESSION_KEY_CRYPTO)
      as [storedKey|] eqn:Hv; [|discriminate].
    exists storedKey. split; [reflexivity|]. split; [exact Hslot|].
    now apply getOrCreateCryptoKey_stored.
  - right. split; [exact Hslot|]. now apply getOrCreateCryptoKey_fresh.
Qed.

(** The world [save] ends in, given the world [wk] the key was obtained in:
    nothing but the entropy cursor moves unless the four fields are written. *)
Lemma save_after_key (c e p : string) (w : world) :
  CredentialManager.save c e p w = (Ok false, w)
  \/ exists (o : outcome CryptoKey) (wk : world),
       CredentialManager.getOrCreateCryptoKey w = (o, wk)
       /\ CredentialManager.isValidCompanyCode c = true
       /\ CredentialManager.isValidEmployeeCode e = true
       /\ p <> ""
       /\ ((fst (CredentialManager.save c e p w) = Ok false
            /\ local (snd (CredentialManager.save c e p w)) = local wk
            /\ session (snd (CredentialManager.save c e p w)) = session wk)
           \/ (exists (key : CryptoKey) (ct : list byte),
                 o = Ok key
                 /\ encrypt key (next_iv wk) (encode p) = Some ct
                 /\ CredentialManager.save c e p w
                    = (Ok true,
                       log (LocalSet (saved_items c e (Array_from ct)
                                        (Array_from (next_iv wk))))
                         (with_local
                            (storage_set
                               (saved_items c e (Array_from ct)
                                  (Array_from (next_iv wk)))
                               (local wk))
                            (after_draw 12 wk))))).
Proof.
  rewrite !save_run.
  destruct (CredentialManager.isValidCompanyCode c); [|now left].
  destruct (CredentialManager.isValidEmployeeCode e); [|now left].
  destruct (String.eqb_spec p ""); [now left|]. cbn [negb andb].
  right.
  destruct (CredentialManager.getOrCreateCryptoKey w) as [[key|ex] wk].
  - exists (Ok key), wk. repeat (split; [auto|]).
    destruct (encrypt key (next_iv wk) (encode p)) as [ct|] eqn:Hct.
    + right. exists key, ct. auto.
    + left. auto.
  - exists (Throw ex), wk. repeat (split; [auto|]). left. auto.
Qed.

Lemma lookup_saved_items_other (c e : string) (enc iv : value)
    (m : gmap string value) (k : string) :
  k ∉ LOCAL_KEYS -> storage_set (saved_items c e enc iv) m !! k = m !! k.
Proof.
  intros Hk. unfold storage_set, saved_items. cbn [foldl fst snd].
  rewrite !lookup_insert_ne; [reflexivity|..];
    intros <-; apply Hk, LOCAL_KEYS_elem; auto.
Qed.

Lemma decryptPassword_run (encryptedData iv : value) (key : CryptoKey)
    (w : world) :
  CredentialManager.decryptPassword encryptedData iv key w =
    (match Uint8Array iv, Uint8Array encryptedData with
     | Some iv8, Some data8 =>
         match decrypt key iv8 data8 with
         | Some decrypted => Ok (decode decrypted)
         | None => Throw OperationError
         end
     | _, _ => Throw RangeError
     end, w).
Proof.
  unfold CredentialManager.decryptPassword. js_run.
  destruct (Uint8Array iv) as [iv8|]; [|reflexivity].
  destruct (Uint8Array encryptedData) as [data8|]; [|reflexivity].
  destruct (decrypt key iv8 data8); reflexivity.
Qed.

(** What [get] and [getSavedCodes] return once [save] has succeeded: the
    password comes back as [TextDecoder] reads what [TextEncoder] wrote. *)
Lemma reads_after_save (c e p : string) (w w' w'' : world) :
  CredentialManager.save c e p w = (Ok true, w') ->
  local w'' = local w' ->
  (session w'' !! CredentialManager.SESSION_KEY_CRYPTO
   = session w' !! CredentialManager.SESSION_KEY_CRYPTO ->
   fst (CredentialManager.get w'')
   = Ok (Some {| companyCode := VStr c; employeeCode := VStr e;
                 password := decode (encode p) |}))
  /\ fst (CredentialManager.getSavedCodes w'')
     = Ok (Some {| saved_companyCode := VStr c; saved_employeeCode := VStr e |}).
Proof.
  intros Hsave Hlocal.
  destruct (save_success c e p w w' Hsave)
    as (Hc & He & _ & key & wk & ct & Hkey & Hct & Hl & Hs).
  destruct (lookup_saved_items c e (Array_from ct) (Array_from (next_iv wk))
              (local wk)) as (Lc & Le & Lp & Li).
  rewrite <- Hl, <- Hlocal in Lc, Le, Lp, Li.
  assert (truthy (VStr c) = true) as Tc
    by (apply truthy_VStr; eapply test_digits_nonempty; exact Hc).
  assert (truthy (VStr e) = true) as Te
    by (apply truthy_VStr; eapply test_digits_nonempty; exact He).
  split.
  - intros Hsession.
    destruct (getOrCreateCryptoKey_active w wk key Hkey) as [Hactive _].
    assert (active_key w'' = Some key) as Hactive''.
    { rewrite <- Hactive. apply active_key_ext. now rewrite Hsession, Hs. }
    rewrite (get_with_key w'' key Hactive'').
    unfold fields_truthy, stored_credential, decrypt_stored.
    rewrite Hactive'', Lc, Le, Lp, Li. unfold truthy_opt. rewrite Tc, Te.
    cbn [truthy Array_from andb].
    fold (Array_from (next_iv wk)). fold (Array_from ct).
    rewrite !Uint8Array_Array_from.
    now rewrite (decrypt_encrypt _ _ _ _ Hct).
  - rewrite getSavedCodes_run, Lc, Le. cbn [fst]. now rewrite Tc, Te.
Qed.

End vault_cases.

Section vault_extras.
Context {P : Platform}.

Lemma Z_of_byte_range (b : byte) : 0 <= Z_of_byte b < 256.
Proof.
  unfold Z_of_byte. pose proof (Byte.to_N_bounded b). lia.
Qed.

Lemma Array_from_range (u8 : list byte) :
  Forall (fun n => 0 <= n < 256) (map Z_of_byte u8).
Proof.
  induction u8 as [|b u8 IH]; simpl; constructor;
    [apply Z_of_byte_range | exact IH].
Qed.

Lemma getOrCreateCryptoKey_stores (w wk : world) (o : outcome CryptoKey) :
  CredentialManager.getOrCreateCryptoKey w = (o, wk) ->
  local wk = local w
  /\ ((~ key_absent w /\ session wk = session w)
      \/ (key_absent w
          /\ session wk = <[CredentialManager.SESSION_KEY_CRYPTO :=
                              Array_from (exportKey (minted_key w))]>
                            (session w))).
Proof.
  destruct (getOrCreateCryptoKey_cases w)
    as [(storedKey & Hslot & Ht & ->) | (Habsent & ->)];
    intros [= _ <-]; (split; [reflexivity|]).
  - left. split; [|reflexivity]. unfold key_absent, truthy_opt.
    rewrite Hslot, Ht. discriminate.
  - right. split; [exact Habsent|reflexivity].
Qed.

(** X1. Round trip of the password cipher: whatever [encryptPassword]
    returns for a password (the empty one included), [decryptPassword], in
    the popup and in the service worker, turns back under the same key into
    the password as [TextDecoder] reads what [TextEncoder] wrote, which is
    the password itself when it has no unpaired surrogate and does not begin
    with U+FEFF; the nonce is the 12 bytes of entropy drawn by the call,
    stored as 12 numbers between 0 and 255, and the call changes nothing
    else in the world. *)
Theorem encryptPassword_decryptPassword_round_trip
    (p : string) (key : CryptoKey) (w w' w'' : world) (encrypted iv : value) :
  CredentialManager.encryptPassword p key w = (Ok (encrypted, iv), w') ->
  CredentialManager.decryptPassword encrypted iv key w''
  = (Ok (decode (encode p)), w'')
  /\ ServiceWorker.decryptPassword encrypted iv key w''
     = (Ok (decode (encode p)), w'')
  /\ (plain_text p = true -> decode (encode p) = p)
  /\ iv = Array_from (next_iv w)
  /\ (exists a, iv = VNums a /\ length a = 12%nat
                /\ Forall (fun n => 0 <= n < 256) a)
  /\ w' = after_draw 12 w.
Proof.
  rewrite encryptPassword_run.
  destruct (encrypt key (next_iv w) (encode p)) as [ct|] eqn:Hct;
    [|intros [= ]].
  intros [= <- <- <-].
  assert (CredentialManager.decryptPassword (Array_from ct)
            (Array_from (next_iv w)) key w''
          = (Ok (decode (encode p)), w'')) as Hround.
  { rewrite decryptPassword_run, !Uint8Array_Array_from.
    now rewrite (decrypt_encrypt _ _ _ _ Hct). }
  split; [exact Hround|]. split; [exact Hround|].
  split; [apply decode_encode|]. split; [reflexivity|].
  split; [|reflexivity].
  exists (map Z_of_byte (next_iv w)). split; [reflexivity|]. split.
  - unfold next_iv. now rewrite !length_map, length_seq.
  - apply Array_from_range.
Qed.

(** X2. [save] never raises: it answers true or false.  When it answers
    false the persistent store is exactly as it was (no partial write, even
    if a key was minted on the way); when it answers true the codes were
    valid, the password non-empty, and the four fields are all stored. *)
Theorem save_answers_without_partial_write (c e p : string) (w : world) :
  exists b : bool,
    fst (CredentialManager.save c e p w) = Ok b
    /\ (b = false -> local (snd (CredentialManager.save c e p w)) = local w)
    /\ (b = true ->
        CredentialManager.isValidCompanyCode c = true
        /\ CredentialManager.isValidEmployeeCode e = true
        /\ p <> ""
        /\ ~ field_missing (snd (CredentialManager.save c e p w))).
Proof.
  destruct (save_after_key c e p w)
    as [Hrej | (o & wk & Hkey & Hc & He & Hp & [(Hf & Hl & Hs) | Hok])].
  - exists false. rewrite Hrej. repeat split; auto; discriminate.
  - exists false. split; [exact Hf|]. split; [|discriminate].
    intros _. rewrite Hl.
    now destruct (getOrCreateCryptoKey_stores w wk o Hkey) as [-> _].
  - destruct Hok as (key & ct & -> & Hct & Hrun).
    exists true. rewrite Hrun. split; [reflexivity|]. split; [discriminate|].
    intros _. repeat (split; [assumption|]).
    rewrite field_missing_iff. unfold fields_truthy.
    cbn [snd local log with_local].
    destruct (lookup_saved_items c e (Array_from ct) (Array_from (next_iv wk))
                (local wk)) as (-> & -> & -> & ->).
    unfold truthy_opt.
    rewrite (proj2 (truthy_VStr c) (test_digits_nonempty _ _ Hc)).
    rewrite (proj2 (truthy_VStr e) (test_digits_nonempty _ _ He)).
    discriminate.
Qed.

(** X3. [save] and [clear] touch only their own keys: every other key of
    the persistent store, and every key of the session-scoped store other
    than [kinrou_crypto_key], keeps its value. *)
Theorem save_and_clear_touch_only_their_keys (c e p : string) (w : world) :
  (forall k, k ∉ LOCAL_KEYS ->
     local (snd (CredentialManager.save c e p w)) !! k = local w !! k)
  /\ (forall k, k <> CredentialManager.SESSION_KEY_CRYPTO ->
        session (snd (CredentialManager.save c e p w)) !! k = session w !! k)
  /\ (forall k, k ∉ LOCAL_KEYS ->
        local (snd (CredentialManager.clear w)) !! k = local w !! k)
  /\ (forall k, k <> CredentialManager.SESSION_KEY_CRYPTO ->
        session (snd (CredentialManager.clear w)) !! k = session w !! k).
Proof.
  assert (forall wk o k,
            CredentialManager.getOrCreateCryptoKey w = (o, wk) ->
            k <> CredentialManager.SESSION_KEY_CRYPTO ->
            session wk !! k = session w !! k) as Hsession.
  { intros wk o k Hkey Hk.
    destruct (getOrCreateCryptoKey_stores w wk o Hkey)
      as [_ [[_ ->] | [_ ->]]]; [reflexivity|].
    now rewrite lookup_insert_ne by congruence. }
  split; [|split; [|split]].
  - intros k Hk.
    destruct (save_after_key c e p w)
      as [-> | (o & wk & Hkey & _ & _ & _ & [(_ & -> & _) | Hok])];
      [reflexivity| |].
    + now destruct (getOrCreateCryptoKey_stores w wk o Hkey) as [-> _].
    + destruct Hok as (key & ct & _ & _ & ->). cbn [snd local log with_local].
      rewrite lookup_saved_items_other by exact Hk.
      now destruct (getOrCreateCryptoKey_stores w wk o Hkey) as [-> _].
  - intros k Hk.
    destruct (save_after_key c e p w)
      as [-> | (o & wk & Hkey & _ & _ & _ & [(_ & _ & ->) | Hok])];
      [reflexivity| |].
    + now apply (Hsession wk o).
    + destruct Hok as (key & ct & _ & _ & ->).
      cbn [snd session log with_local after_draw].
      now apply (Hsession wk o).
  - intros k Hk. rewrite clear_run.
    cbn [snd local log with_session with_local].
    rewrite lookup_storage_remove. now rewrite decide_False.
  - intros k Hk. rewrite clear_run.
    cbn [snd session log with_session with_local].
    rewrite lookup_storage_remove. rewrite decide_False; [reflexivity|].
    rewrite elem_of_cons, elem_of_nil. tauto.
Qed.

(** X4. One key per session: once a [save] has succeeded, the session-scoped
    store holds an importable key, and a later [save], whatever its
    arguments and its answer, leaves the session-scoped store as it is, so
    the same key stays active. *)
Theorem save_keeps_the_session_key
    (c1 e1 p1 c2 e2 p2 : string) (w w1 : world) :
  CredentialManager.save c1 e1 p1 w = (Ok true, w1) ->
  (exists key, active_key w1 = Some key)
  /\ session (snd (CredentialManager.save c2 e2 p2 w1)) = session w1
  /\ active_key (snd (CredentialManager.save c2 e2 p2 w1)) = active_key w1.
Proof.
  intros Hsave.
  destruct (save_success c1 e1 p1 w w1 Hsave)
    as (_ & _ & _ & key & wk & ct & Hkey & _ & _ & Hs).
  destruct (getOrCreateCryptoKey_active w wk key Hkey) as [Hactive _].
  assert (active_key w1 = Some key) as Hactive1
    by (rewrite <- Hactive; apply active_key_ext; now rewrite Hs).
  assert (~ key_absent w1) as Hpresent.
  { unfold key_absent, truthy_opt. unfold active_key in Hactive1.
    destruct (session w1 !! _) as [v|]; [|discriminate].
    destruct (truthy v); [discriminate|discriminate]. }
  assert (session (snd (CredentialManager.save c2 e2 p2 w1)) = session w1)
    as Hsame.
  { destruct (save_after_key c2 e2 p2 w1)
      as [-> | (o & wk' & Hkey' & _ & _ & _ & [(_ & _ & ->) | Hok])];
      [reflexivity| |].
    - destruct (getOrCreateCryptoKey_stores w1 wk' o Hkey')
        as [_ [[_ ->] | [Habsent _]]]; [reflexivity|contradiction].
    - destruct Hok as (key' & ct' & _ & _ & ->).
      cbn [snd session log with_local after_draw].
      destruct (getOrCreateCryptoKey_stores w1 wk' o Hkey')
        as [_ [[_ ->] | [Habsent _]]]; [reflexivity|contradiction]. }
  split; [eauto|]. split; [exact Hsame|].
  apply active_key_ext. now rewrite Hsame.
Qed.

End vault_extras.

(** ** What the stores look like in every reachable world *)

Section store_shape.
Context {P : Platform}.

(** Only the extension's own keys are in use; the four persisted fields are
    all absent or all present, and when present they are two valid codes, a
    ciphertext and a 12-byte nonce. *)
Definition vault_consistent (w : world) : Prop :=
  (forall k, is_Some (local w !! k) -> k ∈ LOCAL_KEYS)
  /\ (forall k, is_Some (session w !! k) ->
                k = CredentialManager.SESSION_KEY_CRYPTO)
  /\ ((forall k, k ∈ LOCAL_KEYS -> local w !! k = None)
      \/ exists (c e : string) (ct iv : list byte),
           CredentialManager.isValidCompanyCode c = true
           /\ CredentialManager.isValidEmployeeCode e = true
           /\ length iv = 12%nat
           /\ local w !! CredentialManager.STORAGE_KEY_COMPANY = Some (VStr c)
           /\ local w !! CredentialManager.STORAGE_KEY_EMPLOYEE = Some (VStr e)
           /\ local w !! CredentialManager.STORAGE_KEY_PASSWORD
              = Some (Array_from ct)
           /\ local w !! CredentialManager.STORAGE_KEY_IV
              = Some (Array_from iv)).

Lemma vault_consistent_local (w w' : world) :
  local w' = local w ->
  (forall k, is_Some (session w' !! k) ->
             k = CredentialManager.SESSION_KEY_CRYPTO) ->
  vault_consistent w -> vault_consistent w'.
Proof.
  unfold vault_consistent. intros -> Hs (Hl & _ & Hfields). auto.
Qed.

Lemma session_keys_after_key (w wk : world) (o : outcome CryptoKey) :
  CredentialManager.getOrCreateCryptoKey w = (o, wk) ->
  (forall k, is_Some (session w !! k) ->
             k = CredentialManager.SESSION_KEY_CRYPTO) ->
  forall k, is_Some (session wk !! k) ->
            k = CredentialManager.SESSION_KEY_CRYPTO.
Proof.
  intros Hkey Hs k.
  destruct (getOrCreateCryptoKey_stores w wk o Hkey)
    as [_ [[_ ->] | [_ ->]]]; [apply Hs|].
  destruct (decide (k = CredentialManager.SESSION_KEY_CRYPTO)) as [->|Hne];
    [reflexivity|].
  rewrite lookup_insert_ne by congruence. apply Hs.
Qed.

Lemma save_consistent (c e p : string) (w : world) :
  vault_consistent w -> vault_consistent (snd (CredentialManager.save c e p w)).
Proof.
  intros Hw.
  destruct (save_after_key c e p w)
    as [-> | (o & wk & Hkey & Hc & He & _ & [(_ & Hl & Hs) | Hok])];
    [exact Hw| |].
  - destruct (getOrCreateCryptoKey_stores w wk o Hkey) as [Hlk _].
    apply (vault_consistent_local w); [now rewrite Hl|
                                        |exact Hw].
    rewrite Hs. apply (session_keys_after_key w wk o Hkey), Hw.
  - destruct Hok as (key & ct & _ & _ & ->).
    destruct (getOrCreateCryptoKey_stores w wk o Hkey) as [Hlk _].
    destruct Hw as (Hlocal & Hsession & _).
    destruct (lookup_saved_items c e (Array_from ct) (Array_from (next_iv wk))
                (local wk)) as (Lc & Le & Lp & Li).
    split; [|split]; cbn [snd local session log with_local after_draw].
    + intros k Hk. destruct (decide (k ∈ LOCAL_KEYS)) as [Hin|Hout];
        [exact Hin|].
      rewrite lookup_saved_items_other in Hk by exact Hout.
      rewrite Hlk in Hk. now apply Hlocal.
    + apply (session_keys_after_key w wk o Hkey), Hsession.
    + right. exists c, e, ct, (next_iv wk).
      repeat (split; [assumption|]).
      split; [unfold next_iv; now rewrite length_map, length_seq|].
      auto.
Qed.

Lemma clear_consistent (w : world) :
  vault_consistent w -> vault_consistent (snd (CredentialManager.clear w)).
Proof.
  intros (Hlocal & Hsession & _). rewrite clear_run.
  split; [|split]; cbn [snd local session log with_session with_local].
  - intros k. rewrite lookup_storage_remove.
    case_decide as Hk; [intros _; exact Hk | apply Hlocal].
  - intros k. rewrite lookup_storage_remove.
    case_decide as Hk; [intros [v Hv]; discriminate | apply Hsession].
  - left. intros k Hk. rewrite lookup_storage_remove. now rewrite decide_True.
Qed.

(** X5. In every world the extension can reach (from installation, through
    any sequence of popup operations, messages and browser restarts) the
    stores hold nothing but the extension's five keys, and the four
    persisted fields are all absent or all present; when present they are a
    company code and an employee code that pass validation, a ciphertext,
    and a nonce of exactly 12 bytes. *)
Theorem reachable_worlds_are_consistent (w : world) :
  reachable w -> vault_consistent w.
Proof.
  induction 1 as [e | c e p w _ IH | w _ IH | w _ IH | w _ IH | w _ IH
                  | message_type sender w _ IH | w _ IH].
  - split; [|split]; cbn [local session].
    + intros k [v Hv]. now rewrite lookup_empty in Hv.
    + intros k [v Hv]. now rewrite lookup_empty in Hv.
    + left. intros k _. apply lookup_empty.
  - now apply save_consistent.
  - destruct (get_frame w) as [Hl Hs].
    apply (vault_consistent_local w); [exact Hl|rewrite Hs; apply IH|exact IH].
  - destruct (getSavedCodes_frame w) as [Hl Hs].
    apply (vault_consistent_local w); [exact Hl|rewrite Hs; apply IH|exact IH].
  - destruct (exists_frame w) as [Hl Hs].
    apply (vault_consistent_local w); [exact Hl|rewrite Hs; apply IH|exact IH].
  - now apply clear_consistent.
  - destruct (onMessage_frame message_type sender w) as [Hl Hs].
    apply (vault_consistent_local w); [exact Hl|rewrite Hs; apply IH|exact IH].
  - apply (vault_consistent_local w); [reflexivity| |exact IH].
    cbn [session with_session]. intros k [v Hv].
    now rewrite lookup_empty in Hv.
Qed.

End store_shape.

(** ** Reads, and the listener as a whole *)

Section reads_and_listener.
Context {P : Platform}.

Lemma exists_run (w : world) :
  CredentialManager.exists_ w =
    (match fst (CredentialManager.get w) with
     | Ok (Some _) => Ok true
     | Ok None => Ok false
     | Throw ex => Throw ex
     end, snd (CredentialManager.get w)).
Proof.
  unfold CredentialManager.exists_, mbind, js_mbind, js_bind.
  destruct (CredentialManager.get w) as [[[cred|]|ex] w']; reflexivity.
Qed.

Lemma get_world (w : world) :
  snd (CredentialManager.get w)
  = log (SessionGet CredentialManager.SESSION_KEY_CRYPTO) w
  \/ snd (CredentialManager.get w)
     = log (LocalGet LOCAL_KEYS)
         (log (SessionGet CredentialManager.SESSION_KEY_CRYPTO) w).
Proof.
  rewrite get_run.
  destruct (session w !! _) as [v|]; [|now left].
  destruct (truthy v); [|now left].
  destruct (import_stored v); [now right|now left].
Qed.

(** X6. The read operations only read: [get], [exists] and the service
    worker's [getCredentials] end in the world they started in plus one
    read of the session-scoped store and at most one read of the four
    persisted fields; [getSavedCodes], in both scripts, ends in the world it
    started in plus one read of the two codes.  No store is written, no
    entropy is drawn. *)
Theorem reads_only_read (w : world) :
  (snd (CredentialManager.get w)
   = log (SessionGet CredentialManager.SESSION_KEY_CRYPTO) w
   \/ snd (CredentialManager.get w)
      = log (LocalGet LOCAL_KEYS)
          (log (SessionGet CredentialManager.SESSION_KEY_CRYPTO) w))
  /\ snd (CredentialManager.exists_ w) = snd (CredentialManager.get w)
  /\ snd (ServiceWorker.getCredentials w) = snd (CredentialManager.get w)
  /\ snd (CredentialManager.getSavedCodes w)
     = log (LocalGet [CredentialManager.STORAGE_KEY_COMPANY;
                      CredentialManager.STORAGE_KEY_EMPLOYEE]) w
  /\ snd (ServiceWorker.getSavedCodes w)
     = log (LocalGet [CredentialManager.STORAGE_KEY_COMPANY;
                      CredentialManager.STORAGE_KEY_EMPLOYEE]) w.
Proof.
  split; [apply get_world|].
  split; [now rewrite exists_run|].
  split; [reflexivity|].
  change (ServiceWorker.getSavedCodes w)
    with (CredentialManager.getSavedCodes w).
  rewrite getSavedCodes_run. split; reflexivity.
Qed.

(** X7. [exists] never raises, and it answers true exactly when [get]
    returns a record, that is, when a session key is stored, the four
    fields are stored, and the ciphertext decrypts. *)
Theorem exists_agrees_with_get (w : world) :
  exists b : bool,
    fst (CredentialManager.exists_ w) = Ok b
    /\ (b = true <-> exists cred, fst (CredentialManager.get w) = Ok (Some cred))
    /\ (b = true <->
        ~ key_absent w /\ ~ field_missing w /\ ~ decryption_fails w).
Proof.
  destruct (get_characterised w) as (r & Hrun & Hiff).
  rewrite exists_run, Hrun. cbn [fst].
  destruct r as [cred|].
  - exists true. split; [reflexivity|]. split.
    + split; eauto.
    + split; [|reflexivity]. intros _.
      assert (~ (key_absent w \/ field_missing w \/ decryption_fails w)) as Hn
        by (intros Hd; apply Hiff in Hd; discriminate).
      tauto.
  - exists false. split; [reflexivity|]. split.
    + split; [discriminate|]. intros (cred & [= ]).
    + split; [discriminate|]. intros (Hk & Hm & Hd).
      destruct (proj1 Hiff eq_refl) as [?|[?|?]]; contradiction.
Qed.

Lemma isValidSender_trusted (sender : MessageSender) (url : string) :
  sender_id sender = Some runtime_id ->
  sender_url sender = Some url ->
  String.prefix ServiceWorker.TRUSTED_PREFIX url = true ->
  ServiceWorker.isValidSender sender = true.
Proof.
  intros Hid Hurl Hprefix.
  unfold ServiceWorker.isValidSender, ServiceWorker.own_id.
  rewrite Hid, Hurl, String.eqb_refl, Hprefix.
  now destruct (negb (String.eqb url "")).
Qed.

(** X8. Vault and gate together, key resident: after a successful [save]
    of a password that has no unpaired surrogate and does not begin with
    U+FEFF, a GET_CREDENTIALS message from a sender with the extension's id
    and a URL under the trusted prefix is answered with the record that was
    saved, and the listener returns true. *)
Theorem trusted_page_receives_the_saved_record
    (c e p url : string) (sender : MessageSender) (w w' w'' : world) :
  plain_text p = true ->
  CredentialManager.save c e p w = (Ok true, w') ->
  local w'' = local w' ->
  session w'' !! CredentialManager.SESSION_KEY_CRYPTO
  = session w' !! CredentialManager.SESSION_KEY_CRYPTO ->
  sender_id sender = Some runtime_id ->
  sender_url sender = Some url ->
  String.prefix ServiceWorker.TRUSTED_PREFIX url = true ->
  fst (ServiceWorker.onMessage "GET_CREDENTIALS" sender w'')
  = Ok {| sent := Some (Credentials {| companyCode := VStr c;
                                       employeeCode := VStr e;
                                       password := p |});
          returned := Some true |}.
Proof.
  intros Hp Hsave Hlocal Hsession Hid Hurl Hprefix.
  unfold ServiceWorker.onMessage.
  rewrite (isValidSender_trusted sender url Hid Hurl Hprefix).
  cbn [negb String.eqb Ascii.eqb Bool.eqb].
  unfold mbind, js_mbind, js_bind.
  change (ServiceWorker.getCredentials w'') with (CredentialManager.get w'').
  pose proof (proj1 (reads_after_save c e p w w' w'' Hsave Hlocal) Hsession)
    as Hget.
  rewrite (decode_encode p Hp) in Hget.
  destruct (CredentialManager.get w'') as [r w3]. cbn [fst] in *.
  now rewrite Hget.
Qed.

(** X9. Vault and gate together, key gone: after a successful [save] and
    the loss of the session key, the same trusted sender is answered [null]
    to GET_CREDENTIALS and the saved pair of codes to GET_SAVED_CODES; the
    listener returns true both times. *)
Theorem trusted_page_in_locked_state
    (c e p url : string) (sender : MessageSender) (w w' w'' : world) :
  CredentialManager.save c e p w = (Ok true, w') ->
  local w'' = local w' ->
  key_absent w'' ->
  sender_id sender = Some runtime_id ->
  sender_url sender = Some url ->
  String.prefix ServiceWorker.TRUSTED_PREFIX url = true ->
  fst (ServiceWorker.onMessage "GET_CREDENTIALS" sender w'')
  = Ok {| sent := Some Null; returned := Some true |}
  /\ fst (ServiceWorker.onMessage "GET_SAVED_CODES" sender w'')
     = Ok {| sent := Some (Codes {| saved_companyCode := VStr c;
                                    saved_employeeCode := VStr e |});
             returned := Some true |}.
Proof.
  intros Hsave Hlocal Habsent Hid Hurl Hprefix.
  unfold ServiceWorker.onMessage.
  rewrite (isValidSender_trusted sender url Hid Hurl Hprefix).
  cbn [negb String.eqb Ascii.eqb Bool.eqb].
  unfold mbind, js_mbind, js_bind.
  change (ServiceWorker.getCredentials w'') with (CredentialManager.get w'').
  change (ServiceWorker.getSavedCodes w'')
    with (CredentialManager.getSavedCodes w'').
  split.
  - rewrite get_run. unfold key_absent, truthy_opt in Habsent.
    destruct (session w'' !! _) as [v|]; [|reflexivity].
    now rewrite Habsent.
  - pose proof (proj2 (reads_after_save c e p w w' w'' Hsave Hlocal)) as Hcodes.
    destruct (CredentialManager.getSavedCodes w'') as [r w3]. cbn [fst] in *.
    now rewrite Hcodes.
Qed.

End reads_and_listener.

Section gate_extras.
Context {P : Platform}.

Lemma append_String (a : ascii) (p rest : string) :
  String a p ++ rest = String a (p ++ rest).
Proof. reflexivity. Qed.

Lemma prefix_app (p s : string) :
  String.prefix p s = true <-> exists rest, s = p ++ rest.
Proof.
  revert s. induction p as [|a p IH]; intros s.
  - split; [intros _; now exists s | intros _; now destruct s].
  - destruct s as [|b s]; simpl.
    + split; [discriminate | intros (rest & Hrest)].
      rewrite append_String in Hrest. discriminate.
    + destruct (ascii_dec a b) as [->|Hne].
      * rewrite IH. split; intros (rest & Hrest); exists rest;
          rewrite append_String in *; congruence.
      * split; [discriminate | intros (rest & Hrest)].
        rewrite append_String in Hrest. congruence.
Qed.

(** X10. Exactly which senders the gate lets through: those with the
    extension's own id and either no URL (or an empty one), or a URL that
    is [https://kinrouap1.hr44.jp/] followed by anything.  A host that
    merely begins with the trusted host name is not of that form. *)
Theorem isValidSender_accepts_exactly (sender : MessageSender) :
  ServiceWorker.isValidSender sender = true <->
  sender_id sender = Some runtime_id
  /\ (sender_url sender = None
      \/ sender_url sender = Some ""
      \/ exists path,
           sender_url sender = Some ("https://kinrouap1.hr44.jp/" ++ path)).
Proof.
  unfold ServiceWorker.isValidSender, ServiceWorker.own_id.
  destruct (sender_id sender) as [id|].
  2:{ split; [discriminate | intros [[= ] _]]. }
  destruct (String.eqb_spec id runtime_id) as [->|Hne].
  2:{ split; [discriminate | intros [[= ->] _]; congruence]. }
  destruct (sender_url sender) as [url|].
  2:{ split; auto. }
  destruct (String.eqb_spec url "") as [->|Hurl]; cbn [negb].
  - split; auto.
  - fold ServiceWorker.TRUSTED_PREFIX. rewrite prefix_app. split.
    + intros (path & ->). split; [reflexivity|]. right; right. now exists path.
    + intros [_ [[= ] | [[= ->] | (path & [= ->])]]];
        [congruence | now exists path].
Qed.

(** On a message whose [type] is a string the listener is [onMessage] on
    that string. *)
Lemma listener_on_typed_message (type : string) (sender : MessageSender) :
  ServiceWorker.listener (Typed type) sender
  = ServiceWorker.onMessage type sender.
Proof.
  unfold ServiceWorker.listener, ServiceWorker.onMessage.
  destruct (ServiceWorker.isValidSender sender); reflexivity.
Qed.

(** X11. The one way the listener raises: a message that is [null] or
    [undefined] from a sender that passed the gate makes it raise a
    TypeError, with no response sent and the world untouched.  In every
    other case it returns: true (a response will follow) exactly when the
    sender passed the gate and the message type is GET_CREDENTIALS or
    GET_SAVED_CODES, and then a response is sent; for any other message it
    leaves the world untouched, answering [null] if the sender was refused
    and nothing at all otherwise. *)
Theorem listener_answers_or_stays_silent
    (message : Message) (sender : MessageSender) (w : world) :
  (ServiceWorker.isValidSender sender = true /\ message = Nullish
   /\ ServiceWorker.listener message sender w = (Throw TypeError, w))
  \/ (~ (ServiceWorker.isValidSender sender = true /\ message = Nullish)
      /\ exists h : Handled,
           fst (ServiceWorker.listener message sender w) = Ok h
           /\ (returned h = Some true <->
               ServiceWorker.isValidSender sender = true
               /\ (message = Typed "GET_CREDENTIALS"
                   \/ message = Typed "GET_SAVED_CODES"))
           /\ (returned h = Some true -> exists r, sent h = Some r)
           /\ (message <> Typed "GET_CREDENTIALS" ->
               message <> Typed "GET_SAVED_CODES" ->
               snd (ServiceWorker.listener message sender w) = w
               /\ h = if ServiceWorker.isValidSender sender
                      then {| sent := None; returned := None |}
                      else {| sent := Some Null; returned := Some false |})).
Proof.
  unfold ServiceWorker.listener.
  destruct (ServiceWorker.isValidSender sender); cbn [negb].
  2:{ right. split; [intros [[= ] _]|].
      eexists. split; [reflexivity|]. cbn [returned sent fst snd].
      split; [split; [discriminate | intros [[= ] _]]|].
      split; [discriminate|]. auto. }
  destruct message as [|type|].
  { left. auto. }
  2:{ right. split; [intros [_ [= ]]|].
      eexists. split; [reflexivity|]. cbn [returned sent fst snd].
      split; [split; [discriminate | intros [_ [[= ]|[= ]]]]|].
      split; [discriminate|]. auto. }
  right. split; [intros [_ [= ]]|].
  unfold ServiceWorker.type_of, mbind, js_mbind, js_bind, mret, js_mret,
    js_ret. cbn [ServiceWorker.type_is].
  destruct (String.eqb_spec type "GET_CREDENTIALS") as [->|Hc].
  { change (ServiceWorker.getCredentials w) with (CredentialManager.get w).
    destruct (get_characterised w) as (r & -> & _).
    eexists. split; [reflexivity|]. cbn [returned sent].
    split; [split; auto|]. split; [eauto|]. congruence. }
  destruct (String.eqb_spec type "GET_SAVED_CODES") as [->|Hs].
  { change (ServiceWorker.getSavedCodes w)
      with (CredentialManager.getSavedCodes w).
    rewrite getSavedCodes_run.
    eexists. split; [reflexivity|]. cbn [returned sent].
    split; [split; auto|]. split; [eauto|]. congruence. }
  eexists. split; [reflexivity|]. cbn [returned sent fst snd].
  split; [split; [discriminate | intros [_ [?|?]]; congruence]|].
  split; [discriminate|]. auto.
Qed.

End gate_extras.

(** * The two user-facing scripts

    The content script (automatic login on the service's pages) and the
    popup script (the configuration form) are the callers of the vault.
    The page is modelled by what the scripts read and write of it.  Both
    scripts hand one callback to [setTimeout]: [Content.main_scheduling]
    and [Popup.handleSave_scheduling] run up to that call and return it as
    a pending [Timeout]; [Content.main] and [Popup.handleSave] are the same
    runs followed at once by the callback, on the page (the popup) as the
    script left it. *)

(** String methods of the language the scripts use.  [trim] is
    [String.prototype.trim]; [Array_toString] is what an array of numbers
    becomes when it is assigned to the value of an input. *)
Class JsString : Type := {
  trim : string -> string;
  Array_toString : list Z -> string
}.

(** What a stored value becomes when assigned to the value of an input. *)
Definition ToString {S : JsString} (v : value) : string :=
  match v with
  | VStr s => s
  | VNums a => Array_toString a
  end.

(** [hay.includes(needle)] *)
Fixpoint includes (needle hay : string) : bool :=
  String.prefix needle hay
  || match hay with
     | EmptyString => false
     | String _ rest => includes needle rest
     end.

(** ** The content script *)

(** The page the content script runs in.  An input is [None] when
    [getElementById] finds no such element and holds its value otherwise;
    [bt] counts the clicks on the login button; [input_events] lists the
    ids of the elements an [input] event was dispatched on, the latest
    first; [location_href] is the last value assigned to
    [window.location.href], if any.  The page is the service's, not the
    extension's: what an element keeps of a string assigned to its [value]
    (an [input] of type text or password drops the line breaks) is the
    page's [value_sanitization], from the id of the element and the string
    assigned to the value held. *)
Record Page : Type := {
  page_url : string;
  title : string;
  h1 : option string;
  h2 : option string;
  houjin_code : option string;
  user_id : option string;
  password_input : option string;
  bt : option nat;
  input_events : list string;
  location_href : option string;
  value_sanitization : string -> string -> string
}.

(** A call of [setTimeout] that is pending: the delay in milliseconds and
    what the callback closes over. *)
Record Timeout (A : Type) : Type := {
  delay : nat;
  closure : A
}.
Arguments delay {A} _.
Arguments closure {A} _.

Module Content.

Definition TIMEOUT_ERROR : string := "タイムアウトエラー".
Definition ERROR_500 : string := "500エラー".
Definition LOGIN_PATH : string := "/kinrou/kojin/".

Definition isLoginPage (page : Page) : bool :=
  match houjin_code page, user_id page, password_input page, bt page with
  | Some _, Some _, Some _, Some _ => true
  | _, _, _, _ => false
  end.

Definition isTimeoutErrorPage (page : Page) : bool :=
  includes TIMEOUT_ERROR (title page)
  || match h2 page with
     | Some textContent => includes TIMEOUT_ERROR textContent
     | None => false
     end.

Section with_strings.
Context {P : Platform} {S : JsString}.

Definition is500ErrorPage (page : Page) : bool :=
  includes ERROR_500 (title page)
  || match h1 page with
     | Some textContent => String.eqb (trim textContent) "500"
     | None => false
     end.

Definition fillAndSubmit (credentials : Credential) (page : Page) : Page :=
  match houjin_code page, user_id page, password_input page, bt page with
  | Some _, Some _, Some _, Some clicks =>
      {| page_url := page_url page;
         title := title page;
         h1 := h1 page;
         h2 := h2 page;
         houjin_code :=
           Some (value_sanitization page "houjin_code"
                   (ToString (companyCode credentials)));
         user_id :=
           Some (value_sanitization page "user_id"
                   (ToString (employeeCode credentials)));
         password_input :=
           Some (value_sanitization page "password" (password credentials));
         bt := Some (Datatypes.S clicks);
         input_events := "password" :: "user_id" :: "houjin_code"
                         :: input_events page;
         location_href := location_href page;
         value_sanitization := value_sanitization page |}
  | _, _, _, _ => page
  end.

Definition redirectToLogin (page : Page) : Page :=
  {| page_url := page_url page;
     title := title page;
     h1 := h1 page;
     h2 := h2 page;
     houjin_code := houjin_code page;
     user_id := user_id page;
     password_input := password_input page;
     bt := bt page;
     input_events := input_events page;
     location_href := Some LOGIN_PATH;
     value_sanitization := value_sanitization page |}.

(** The sender the service worker sees for a message of this page. *)
Definition sender_of (page : Page) : MessageSender :=
  {| sender_id := Some runtime_id; sender_url := Some (page_url page) |}.

(** [chrome.runtime.sendMessage({ type }, callback)]: the callback gets
    what the listener passed to [sendResponse]. *)
Definition sendMessage (message_type : string) (page : Page)
  : js (option response) :=
  handled ← ServiceWorker.onMessage message_type (sender_of page);
  mret (sent handled).

Definition getCredentials (page : Page) : js (option response) :=
  sendMessage "GET_CREDENTIALS" page.

Definition getSavedCodes (page : Page) : js (option response) :=
  sendMessage "GET_SAVED_CODES" page.

(** [main] up to its return: the page as it leaves it, and the callback it
    handed to [setTimeout], if any; the callback is [fillAndSubmit] on the
    record it closes over. *)
Definition main_scheduling (page : Page)
  : js (Page * option (Timeout Credential)) :=
  if isTimeoutErrorPage page then mret (redirectToLogin page, None)
  else if is500ErrorPage page then mret (redirectToLogin page, None)
  else if isLoginPage page then
    try_catch
      (credentials ← getCredentials page;
       match credentials with
       | Some (Credentials credentials) =>
           mret (page, Some {| delay := 500; closure := credentials |})
       | Some (Codes codes) =>
           (* a truthy response without [password]: the callback will
              assign [undefined] to the field *)
           mret (page,
                 Some {| delay := 500;
                         closure :=
                           {| companyCode := saved_companyCode codes;
                              employeeCode := saved_employeeCode codes;
                              password := "undefined" |} |})
       | Some Null | None =>
           _ ← getSavedCodes page;
           mret (page, None)
       end)
      (fun _ => mret (page, None))
  else mret (page, None).

(** [main] followed at once by the callback it scheduled. *)
Definition main (page : Page) : js Page :=
  if isTimeoutErrorPage page then mret (redirectToLogin page)
  else if is500ErrorPage page then mret (redirectToLogin page)
  else if isLoginPage page then
    try_catch
      (credentials ← getCredentials page;
       match credentials with
       | Some (Credentials credentials) =>
           mret (fillAndSubmit credentials page)
       | Some (Codes codes) =>
           (* a truthy response without [password]: the field is assigned
              [undefined] *)
           mret (fillAndSubmit
                   {| companyCode := saved_companyCode codes;
                      employeeCode := saved_employeeCode codes;
                      password := "undefined" |} page)
       | Some Null | None =>
           _ ← getSavedCodes page;
           mret page
       end)
      (fun _ => mret page)
  else mret page.

End with_strings.

End Content.

(** ** The popup *)

Inductive MessageType : Type := success | error.

(** The popup's form: the values of the three inputs, the message shown
    (none while the message element is hidden), the save button, and what
    was done to the browser: the URL the active tab was sent to and whether
    the popup window was closed. *)
Record PopupUi : Type := {
  companyInput : string;
  employeeInput : string;
  passwordInput : string;
  message : option (string * MessageType);
  saveBtn_disabled : bool;
  saveBtn_textContent : string;
  tab_url : option string;
  window_closed : bool
}.

Module Popup.

Definition PUNCH_PAGE : string :=
  "https://kinrouap1.hr44.jp/kinrou/kojin/kintaiDakoku/".

Definition showMessage (text : string) (type : MessageType) (ui : PopupUi)
  : PopupUi :=
  {| companyInput := companyInput ui;
     employeeInput := employeeInput ui;
     passwordInput := passwordInput ui;
     message := Some (text, type);
     saveBtn_disabled := saveBtn_disabled ui;
     saveBtn_textContent := saveBtn_textContent ui;
     tab_url := tab_url ui;
     window_closed := window_closed ui |}.

(** [saveBtn.disabled = disabled; saveBtn.textContent = text] *)
Definition setSaveBtn (disabled : bool) (text : string) (ui : PopupUi)
  : PopupUi :=
  {| companyInput := companyInput ui;
     employeeInput := employeeInput ui;
     passwordInput := passwordInput ui;
     message := message ui;
     saveBtn_disabled := disabled;
     saveBtn_textContent := text;
     tab_url := tab_url ui;
     window_closed := window_closed ui |}.

(** Assignments to the values of the three inputs. *)
Definition setInputs (company employee password : string) (ui : PopupUi)
  : PopupUi :=
  {| companyInput := company;
     employeeInput := employee;
     passwordInput := password;
     message := message ui;
     saveBtn_disabled := saveBtn_disabled ui;
     saveBtn_textContent := saveBtn_textContent ui;
     tab_url := tab_url ui;
     window_closed := window_closed ui |}.

(** [chrome.tabs.update(tab.id, { url })] on the active tab, then
    [window.close()]. *)
Definition openPage (ui : PopupUi) : PopupUi :=
  {| companyInput := companyInput ui;
     employeeInput := employeeInput ui;
     passwordInput := passwordInput ui;
     message := message ui;
     saveBtn_disabled := saveBtn_disabled ui;
     saveBtn_textContent := saveBtn_textContent ui;
     tab_url := Some PUNCH_PAGE;
     window_closed := true |}.

Section with_strings.
Context {P : Platform} {S : JsString}.

(** The callback [handleSave] hands to [setTimeout], which is also the
    click handler of the open-page button.  [tab] is the first tab
    [chrome.tabs.query] answers with; when it answers with none, [tab.id]
    raises a TypeError. *)
Definition openPunchPage (tab : option nat) (ui : PopupUi) : js PopupUi :=
  match tab with
  | Some _ => mret (openPage ui)
  | None => throw TypeError
  end.

Definition loadSavedCodes (ui : PopupUi) : js PopupUi :=
  try_catch
    (savedCodes ← CredentialManager.getSavedCodes;
     match savedCodes with
     | Some savedCodes =>
         mret (setInputs (ToString (saved_companyCode savedCodes))
                         (ToString (saved_employeeCode savedCodes))
                         (passwordInput ui) ui)
     | None => mret ui
     end)
    (fun _ => mret ui).

(** [handleSave] up to its return: the popup as it leaves it, and whether
    it handed the callback [openPunchPage] to [setTimeout]. *)
Definition handleSave_scheduling (ui : PopupUi)
  : js (PopupUi * option (Timeout unit)) :=
  let companyCode := trim (companyInput ui) in
  let employeeCode := trim (employeeInput ui) in
  let password := passwordInput ui in
  if String.eqb companyCode "" || String.eqb employeeCode ""
     || String.eqb password "" then
    mret (showMessage "すべての項目を入力してください" error ui, None)
  else if negb (CredentialManager.isValidCompanyCode companyCode) then
    mret (showMessage "法人コードは5桁以下の数字で入力してください" error ui,
          None)
  else if negb (CredentialManager.isValidEmployeeCode employeeCode) then
    mret (showMessage "社員コードは10桁以下の数字で入力してください" error ui,
          None)
  else
    let ui := setSaveBtn true "保存中..." ui in
    let failed : PopupUi :=
      setSaveBtn false "保存" (showMessage "保存に失敗しました" error ui) in
    try_catch
      (ok ← CredentialManager.save companyCode employeeCode password;
       if (ok : bool) then
         let ui :=
           showMessage "認証情報を保存しました。打刻画面へ移動します..."
             success ui in
         let ui := setInputs (companyInput ui) (employeeInput ui) "" ui in
         mret (ui, Some {| delay := 1000; closure := tt |})
       else mret (failed, None))
      (fun _ => mret (failed, None)).

(** [handleSave] followed at once by the callback it scheduled, the
    browser answering with an active tab. *)
Definition handleSave (ui : PopupUi) : js PopupUi :=
  let companyCode := trim (companyInput ui) in
  let employeeCode := trim (employeeInput ui) in
  let password := passwordInput ui in
  if String.eqb companyCode "" || String.eqb employeeCode ""
     || String.eqb password "" then
    mret (showMessage "すべての項目を入力してください" error ui)
  else if negb (CredentialManager.isValidCompanyCode companyCode) then
    mret (showMessage "法人コードは5桁以下の数字で入力してください" error ui)
  else if negb (CredentialManager.isValidEmployeeCode employeeCode) then
    mret (showMessage "社員コードは10桁以下の数字で入力してください" error ui)
  else
    let ui := setSaveBtn true "保存中..." ui in
    let failed : PopupUi :=
      setSaveBtn false "保存" (showMessage "保存に失敗しました" error ui) in
    try_catch
      (ok ← CredentialManager.save companyCode employeeCode password;
       if (ok : bool) then
         let ui :=
           showMessage "認証情報を保存しました。打刻画面へ移動します..."
             success ui in
         let ui := setInputs (companyInput ui) (employeeInput ui) "" ui in
         mret (openPage ui)
       else mret failed)
      (fun _ => mret failed).

(** The click handler of the clear button; [confirmed] is the user's answer
    to the [confirm] dialog. *)
Definition onClearClick (confirmed : bool) (ui : PopupUi) : js PopupUi :=
  if negb confirmed then mret ui
  else
    try_catch
      (ok ← CredentialManager.clear;
       if (ok : bool) then
         mret (showMessage "認証情報を削除しました" success
                 (setInputs "" "" "" ui))
       else mret (showMessage "削除に失敗しました" error ui))
      (fun _ => mret (showMessage "削除に失敗しました" error ui)).

End with_strings.

End Popup.

(** ** The content script and the vault *)

Section content_script.
Context {P : Platform} {S : JsString}.

(** What [get] returns in the world [w] (it never raises). *)
Definition get_result (w : world) : option Credential :=
  match fst (CredentialManager.get w) with
  | Ok r => r
  | Throw _ => None
  end.

Lemma get_result_run (w : world) :
  CredentialManager.get w = (Ok (get_result w), snd (CredentialManager.get w)).
Proof.
  unfold get_result. destruct (get_characterised w) as (r & Hrun & _).
  apply (f_equal fst) in Hrun. cbn [fst] in Hrun.
  destruct (CredentialManager.get w) as [o w']. cbn [fst snd] in *.
  now subst o.
Qed.

Lemma onMessage_denied (message_type : string) (sender : MessageSender)
    (w : world) :
  ServiceWorker.isValidSender sender = false ->
  ServiceWorker.onMessage message_type sender w
  = (Ok {| sent := Some Null; returned := Some false |}, w).
Proof. intros Hdenied. unfold ServiceWorker.onMessage. now rewrite Hdenied. Qed.

Lemma onMessage_credentials (sender : MessageSender) (w : world) :
  ServiceWorker.isValidSender sender = true ->
  ServiceWorker.onMessage "GET_CREDENTIALS" sender w
  = (Ok {| sent := Some (ServiceWorker.credentials_response (get_result w));
           returned := Some true |},
     snd (CredentialManager.get w)).
Proof.
  intros Hvalid. unfold ServiceWorker.onMessage. rewrite Hvalid.
  cbn [negb String.eqb Ascii.eqb Bool.eqb].
  unfold mbind, js_mbind, js_bind.
  change (ServiceWorker.getCredentials w) with (CredentialManager.get w).
  now rewrite get_result_run.
Qed.

Lemma onMessage_saved_codes (sender : MessageSender) (w : world) :
  exists h,
    fst (ServiceWorker.onMessage "GET_SAVED_CODES" sender w) = Ok h.
Proof.
  unfold ServiceWorker.onMessage.
  destruct (ServiceWorker.isValidSender sender); cbn [negb];
    [|eexists; reflexivity].
  cbn [String.eqb Ascii.eqb Bool.eqb].
  unfold mbind, js_mbind, js_bind.
  change (ServiceWorker.getSavedCodes w)
    with (CredentialManager.getSavedCodes w).
  rewrite getSavedCodes_run. eexists. reflexivity.
Qed.

(** The page [main] leaves behind on a login page that is not an error
    page. *)
Lemma main_on_login_page (page : Page) (w : world) :
  Content.isTimeoutErrorPage page = false ->
  Content.is500ErrorPage page = false ->
  Content.isLoginPage page = true ->
  fst (Content.main page w)
  = Ok (if ServiceWorker.isValidSender (Content.sender_of page)
        then match get_result w with
             | Some credentials => Content.fillAndSubmit credentials page
             | None => page
             end
        else page).
Proof.
  intros Ht H5 Hl. unfold Content.main. rewrite Ht, H5, Hl.
  unfold try_catch, Content.getCredentials, Content.getSavedCodes,
    Content.sendMessage, mbind, js_mbind, js_bind.
  destruct (ServiceWorker.isValidSender (Content.sender_of page)) eqn:Hgate.
  - rewrite (onMessage_credentials _ w Hgate). cbn [sent mret js_mret js_ret].
    destruct (get_result w) as [credentials|]; cbn; [reflexivity|].
    destruct (onMessage_saved_codes (Content.sender_of page)
                (snd (CredentialManager.get w))) as (h & Hh).
    destruct (ServiceWorker.onMessage "GET_SAVED_CODES" _ _) as [o w3].
    cbn [fst] in Hh. now rewrite Hh.
  - rewrite (onMessage_denied _ _ w Hgate). cbn [sent mret js_mret js_ret].
    now rewrite (onMessage_denied _ _ w Hgate).
Qed.

(** X12. What the content script can do to a page, in every state of the
    world and never raising: it redirects an error page to the login path
    without sending any message; it fills in and submits a form only on a
    login page that is not an error page and whose URL passes the gate, and
    only with the record [get] returns in that world; in every other case
    it leaves the page as it is. *)
Theorem content_script_submits_only_the_stored_record (page : Page) (w : world) :
  exists page' : Page,
    fst (Content.main page w) = Ok page'
    /\ ((page' = Content.redirectToLogin page
         /\ (Content.isTimeoutErrorPage page = true
             \/ Content.is500ErrorPage page = true)
         /\ snd (Content.main page w) = w)
        \/ page' = page
        \/ (exists credentials : Credential,
              page' = Content.fillAndSubmit credentials page
              /\ fst (CredentialManager.get w) = Ok (Some credentials)
              /\ ServiceWorker.isValidSender (Content.sender_of page) = true
              /\ Content.isLoginPage page = true
              /\ Content.isTimeoutErrorPage page = false
              /\ Content.is500ErrorPage page = false)).
Proof.
  destruct (Content.isTimeoutErrorPage page) eqn:Ht.
  { exists (Content.redirectToLogin page). unfold Content.main. rewrite Ht.
    split; [reflexivity|]. left. auto. }
  destruct (Content.is500ErrorPage page) eqn:H5.
  { exists (Content.redirectToLogin page). unfold Content.main. rewrite Ht, H5.
    split; [reflexivity|]. left. auto. }
  destruct (Content.isLoginPage page) eqn:Hl.
  2:{ exists page. unfold Content.main. rewrite Ht, H5, Hl.
      split; [reflexivity|]. right. now left. }
  rewrite (main_on_login_page page w Ht H5 Hl).
  destruct (ServiceWorker.isValidSender (Content.sender_of page)) eqn:Hgate.
  2:{ exists page. split; [reflexivity|]. right. now left. }
  destruct (get_result w) as [credentials|] eqn:Hget.
  2:{ exists page. split; [reflexivity|]. right. now left. }
  exists (Content.fillAndSubmit credentials page). split; [reflexivity|].
  right; right. exists credentials. split; [reflexivity|].
  split; [|auto]. rewrite get_result_run. cbn [fst]. now rewrite Hget.
Qed.

(** What [main] has scheduled when it returns on a login page that is not
    an error page. *)
Lemma main_scheduling_on_login_page (page : Page) (w : world) :
  Content.isTimeoutErrorPage page = false ->
  Content.is500ErrorPage page = false ->
  Content.isLoginPage page = true ->
  fst (Content.main_scheduling page w)
  = Ok (page,
        if ServiceWorker.isValidSender (Content.sender_of page)
        then match get_result w with
             | Some credentials =>
                 Some {| delay := 500; closure := credentials |}
             | None => None
             end
        else None).
Proof.
  intros Ht H5 Hl. unfold Content.main_scheduling. rewrite Ht, H5, Hl.
  unfold try_catch, Content.getCredentials, Content.getSavedCodes,
    Content.sendMessage, mbind, js_mbind, js_bind.
  destruct (ServiceWorker.isValidSender (Content.sender_of page)) eqn:Hgate.
  - rewrite (onMessage_credentials _ w Hgate). cbn [sent mret js_mret js_ret].
    destruct (get_result w) as [credentials|]; cbn; [reflexivity|].
    destruct (onMessage_saved_codes (Content.sender_of page)
                (snd (CredentialManager.get w))) as (h & Hh).
    destruct (ServiceWorker.onMessage "GET_SAVED_CODES" _ _) as [o w3].
    cbn [fst] in Hh. now rewrite Hh.
  - rewrite (onMessage_denied _ _ w Hgate). cbn [sent mret js_mret js_ret].
    now rewrite (onMessage_denied _ _ w Hgate).
Qed.

(** [Content.main] is [Content.main_scheduling] followed at once by the
    callback it scheduled. *)
Lemma main_fires_at_once (page : Page) (w : world) :
  Content.main page w
  = (scheduled ← Content.main_scheduling page;
     match snd scheduled with
     | Some timeout =>
         mret (Content.fillAndSubmit (closure timeout) (fst scheduled))
     | None => mret (fst scheduled)
     end) w.
Proof.
  unfold Content.main, Content.main_scheduling.
  destruct (Content.isTimeoutErrorPage page); [reflexivity|].
  destruct (Content.is500ErrorPage page); [reflexivity|].
  destruct (Content.isLoginPage page); [|reflexivity].
  unfold try_catch, Content.getCredentials, Content.getSavedCodes,
    Content.sendMessage, mbind, js_mbind, js_bind.
  destruct (ServiceWorker.onMessage "GET_CREDENTIALS" _ w) as [[h|ex] w1];
    [|reflexivity].
  cbn [mret js_mret js_ret].
  destruct (sent h) as [[|credentials|codes]|]; try reflexivity;
    destruct (ServiceWorker.onMessage "GET_SAVED_CODES" _ w1) as [[h2|ex] w2];
    reflexivity.
Qed.

(** What the callback does to the page it finds: on a page with the four
    elements it assigns the record to the three inputs, dispatches the
    three [input] events and clicks once; on any other page it does
    nothing. *)
Lemma fillAndSubmit_on_login_form (credentials : Credential) (later : Page) :
  Content.isLoginPage later = true ->
  exists clicks : nat,
    bt later = Some clicks
    /\ houjin_code (Content.fillAndSubmit credentials later)
       = Some (value_sanitization later "houjin_code"
                 (ToString (companyCode credentials)))
    /\ user_id (Content.fillAndSubmit credentials later)
       = Some (value_sanitization later "user_id"
                 (ToString (employeeCode credentials)))
    /\ password_input (Content.fillAndSubmit credentials later)
       = Some (value_sanitization later "password" (password credentials))
    /\ bt (Content.fillAndSubmit credentials later)
       = Some (Datatypes.S clicks)
    /\ input_events (Content.fillAndSubmit credentials later)
       = "password" :: "user_id" :: "houjin_code" :: input_events later
    /\ location_href (Content.fillAndSubmit credentials later)
       = location_href later.
Proof.
  unfold Content.isLoginPage, Content.fillAndSubmit. intros Hl.
  destruct (houjin_code later); [|discriminate].
  destruct (user_id later); [|discriminate].
  destruct (password_input later); [|discriminate].
  destruct (bt later) as [clicks|]; [|discriminate].
  exists clicks. cbn. repeat split; reflexivity.
Qed.

Lemma fillAndSubmit_elsewhere (credentials : Credential) (later : Page) :
  Content.isLoginPage later = false ->
  Content.fillAndSubmit credentials later = later.
Proof.
  unfold Content.isLoginPage, Content.fillAndSubmit.
  destruct (houjin_code later); [|reflexivity].
  destruct (user_id later); [|reflexivity].
  destruct (password_input later); [|reflexivity].
  destruct (bt later); [discriminate|reflexivity].
Qed.

(** X13. Automatic login: after a successful [save] of a password that has
    no unpaired surrogate and does not begin with U+FEFF, with the session
    key still resident, on a login page under the trusted prefix that is
    not an error page, the content script leaves the page as it is and
    schedules, 500 ms later, the filling of the form with the saved record.
    When the callback runs, on a page that still has the three inputs and
    the button it assigns the saved company code, employee code and
    password to the inputs (each input keeps what its value sanitization
    leaves of the string), dispatches an [input] event on each, and clicks
    the login button once; on a page that no longer has them it does
    nothing. *)
Theorem content_script_logs_in_with_the_saved_record
    (c e p : string) (w w' w'' : world) (page : Page) :
  plain_text p = true ->
  CredentialManager.save c e p w = (Ok true, w') ->
  local w'' = local w' ->
  session w'' !! CredentialManager.SESSION_KEY_CRYPTO
  = session w' !! CredentialManager.SESSION_KEY_CRYPTO ->
  String.prefix ServiceWorker.TRUSTED_PREFIX (page_url page) = true ->
  Content.isTimeoutErrorPage page = false ->
  Content.is500ErrorPage page = false ->
  Content.isLoginPage page = true ->
  exists credentials : Credential,
    credentials = {| companyCode := VStr c; employeeCode := VStr e;
                     password := p |}
    /\ fst (Content.main_scheduling page w'')
       = Ok (page, Some {| delay := 500; closure := credentials |})
    /\ (forall later : Page,
          Content.isLoginPage later = true ->
          exists clicks : nat,
            bt later = Some clicks
            /\ houjin_code (Content.fillAndSubmit credentials later)
               = Some (value_sanitization later "houjin_code" c)
            /\ user_id (Content.fillAndSubmit credentials later)
               = Some (value_sanitization later "user_id" e)
            /\ password_input (Content.fillAndSubmit credentials later)
               = Some (value_sanitization later "password" p)
            /\ bt (Content.fillAndSubmit credentials later)
               = Some (Datatypes.S clicks)
            /\ input_events (Content.fillAndSubmit credentials later)
               = "password" :: "user_id" :: "houjin_code"
                 :: input_events later
            /\ location_href (Content.fillAndSubmit credentials later)
               = location_href later)
    /\ (forall later : Page,
          Content.isLoginPage later = false ->
          Content.fillAndSubmit credentials later = later).
Proof.
  intros Hp Hsave Hlocal Hsession Hurl Ht H5 Hl.
  eexists. split; [reflexivity|]. split; [|split].
  - rewrite (main_scheduling_on_login_page page w'' Ht H5 Hl).
    rewrite (isValidSender_trusted (Content.sender_of page) (page_url page)
               eq_refl eq_refl Hurl).
    pose proof (proj1 (reads_after_save c e p w w' w'' Hsave Hlocal) Hsession)
      as Hget.
    rewrite (decode_encode p Hp) in Hget.
    unfold get_result. now rewrite Hget.
  - intros later Hlater.
    exact (fillAndSubmit_on_login_form _ later Hlater).
  - intros later Hlater. now apply fillAndSubmit_elsewhere.
Qed.

(** X14. No record, no submission: when [get] returns [null] (no session
    key after a restart, nothing saved, or a ciphertext that does not
    decrypt), or when the page's URL does not pass the gate, the content
    script leaves a page that is not an error page exactly as it is. *)
Theorem content_script_without_record_leaves_the_page (page : Page) (w : world) :
  fst (CredentialManager.get w) = Ok None
  \/ ServiceWorker.isValidSender (Content.sender_of page) = false ->
  Content.isTimeoutErrorPage page = false ->
  Content.is500ErrorPage page = false ->
  fst (Content.main page w) = Ok page.
Proof.
  intros Hno Ht H5.
  destruct (Content.isLoginPage page) eqn:Hl.
  2:{ unfold Content.main. now rewrite Ht, H5, Hl. }
  rewrite (main_on_login_page page w Ht H5 Hl).
  destruct Hno as [Hget | Hgate].
  - unfold get_result. rewrite Hget.
    now destruct (ServiceWorker.isValidSender (Content.sender_of page)).
  - now rewrite Hgate.
Qed.

End content_script.

(** ** The popup and the vault *)

Section popup_script.
Context {P : Platform} {S : JsString}.

Lemma save_total (c e p : string) (w : world) :
  exists b : bool,
    CredentialManager.save c e p w
    = (Ok b, snd (CredentialManager.save c e p w)).
Proof.
  rewrite save_run.
  destruct (_ && _ && _); [|now exists false].
  destruct (CredentialManager.getOrCreateCryptoKey w) as [[key|ex] wk];
    [|now exists false].
  destruct (encrypt key (next_iv wk) (encode p));
    [now exists true | now exists false].
Qed.

Lemma save_false_keeps_local (c e p : string) (w w' : world) :
  CredentialManager.save c e p w = (Ok false, w') -> local w' = local w.
Proof.
  intros Hrun.
  destruct (save_after_key c e p w)
    as [Hrej | (o & wk & Hkey & _ & _ & _ & [(_ & Hl & _) | Hok])].
  - rewrite Hrej in Hrun. now injection Hrun as <-.
  - rewrite Hrun in Hl. cbn [snd] in Hl. rewrite Hl.
    now destruct (getOrCreateCryptoKey_stores w wk o Hkey) as [-> _].
  - destruct Hok as (key & ct & _ & _ & Hok). rewrite Hok in Hrun.
    discriminate.
Qed.

(** The form passes the popup's own checks. *)
Definition form_ok (ui : PopupUi) : bool :=
  negb (String.eqb (trim (companyInput ui)) "")
  && negb (String.eqb (trim (employeeInput ui)) "")
  && negb (String.eqb (passwordInput ui) "")
  && CredentialManager.isValidCompanyCode (trim (companyInput ui))
  && CredentialManager.isValidEmployeeCode (trim (employeeInput ui)).

Lemma handleSave_rejected (ui : PopupUi) (w : world) :
  form_ok ui = false ->
  exists text, Popup.handleSave ui w = (Ok (Popup.showMessage text error ui), w).
Proof.
  unfold form_ok, Popup.handleSave.
  destruct (String.eqb (trim (companyInput ui)) ""); cbn [negb andb orb];
    [intros _; eexists; reflexivity|].
  destruct (String.eqb (trim (employeeInput ui)) ""); cbn [negb andb orb];
    [intros _; eexists; reflexivity|].
  destruct (String.eqb (passwordInput ui) ""); cbn [negb andb orb];
    [intros _; eexists; reflexivity|].
  destruct (CredentialManager.isValidCompanyCode (trim (companyInput ui)));
    cbn [negb andb]; [|intros _; eexists; reflexivity].
  destruct (CredentialManager.isValidEmployeeCode (trim (employeeInput ui)));
    cbn [negb]; [discriminate|intros _; eexists; reflexivity].
Qed.

(** Past its own checks, [handleSave] is [save] on the trimmed codes, and
    the form shows what [save] answered. *)
Lemma handleSave_accepted (ui : PopupUi) (w : world) :
  form_ok ui = true ->
  exists (b : bool) (ui' : PopupUi) (text : string),
    CredentialManager.save (trim (companyInput ui)) (trim (employeeInput ui))
      (passwordInput ui) w
    = (Ok b, snd (Popup.handleSave ui w))
    /\ fst (Popup.handleSave ui w) = Ok ui'
    /\ companyInput ui' = companyInput ui
    /\ employeeInput ui' = employeeInput ui
    /\ (b = true ->
        message ui' = Some (text, success)
        /\ passwordInput ui' = ""
        /\ saveBtn_disabled ui' = true
        /\ tab_url ui' = Some Popup.PUNCH_PAGE
        /\ window_closed ui' = true)
    /\ (b = false ->
        message ui' = Some (text, error)
        /\ passwordInput ui' = passwordInput ui
        /\ saveBtn_disabled ui' = false
        /\ tab_url ui' = tab_url ui
        /\ window_closed ui' = window_closed ui).
Proof.
  unfold form_ok, Popup.handleSave. rewrite !andb_true_iff.
  intros ((((Hc & He) & Hp) & Hvc) & Hve).
  apply negb_true_iff in Hc, He, Hp. rewrite Hc, He, Hp, Hvc, Hve.
  cbn [negb orb]. unfold try_catch, mbind, js_mbind, js_bind.
  destruct (save_total (trim (companyInput ui)) (trim (employeeInput ui))
              (passwordInput ui) w) as (b & Hrun).
  rewrite Hrun. cbn [snd].
  destruct b; cbn [mret js_mret js_ret fst snd];
    eexists _, _, _; (split; [reflexivity|]); (split; [reflexivity|]);
    cbn; repeat split; try reflexivity; try discriminate.
Qed.

Lemma handleSave_scheduling_rejected (ui : PopupUi) (w : world) :
  form_ok ui = false ->
  exists text,
    Popup.handleSave_scheduling ui w
    = (Ok (Popup.showMessage text error ui, None), w).
Proof.
  unfold form_ok, Popup.handleSave_scheduling.
  destruct (String.eqb (trim (companyInput ui)) ""); cbn [negb andb orb];
    [intros _; eexists; reflexivity|].
  destruct (String.eqb (trim (employeeInput ui)) ""); cbn [negb andb orb];
    [intros _; eexists; reflexivity|].
  destruct (String.eqb (passwordInput ui) ""); cbn [negb andb orb];
    [intros _; eexists; reflexivity|].
  destruct (CredentialManager.isValidCompanyCode (trim (companyInput ui)));
    cbn [negb andb]; [|intros _; eexists; reflexivity].
  destruct (CredentialManager.isValidEmployeeCode (trim (employeeInput ui)));
    cbn [negb]; [discriminate|intros _; eexists; reflexivity].
Qed.

(** Past its own checks, [handleSave] is [save] on the trimmed codes; the
    form shows what [save] answered, and the move to the punch page is
    scheduled, not made, when it answered true. *)
Lemma handleSave_scheduling_accepted (ui : PopupUi) (w : world) :
  form_ok ui = true ->
  exists (b : bool) (ui' : PopupUi) (timeout : option (Timeout unit))
         (text : string),
    CredentialManager.save (trim (companyInput ui)) (trim (employeeInput ui))
      (passwordInput ui) w
    = (Ok b, snd (Popup.handleSave_scheduling ui w))
    /\ fst (Popup.handleSave_scheduling ui w) = Ok (ui', timeout)
    /\ companyInput ui' = companyInput ui
    /\ employeeInput ui' = employeeInput ui
    /\ tab_url ui' = tab_url ui
    /\ window_closed ui' = window_closed ui
    /\ (b = true ->
        message ui' = Some (text, success)
        /\ passwordInput ui' = ""
        /\ saveBtn_disabled ui' = true
        /\ timeout = Some {| delay := 1000; closure := tt |})
    /\ (b = false ->
        message ui' = Some (text, error)
        /\ passwordInput ui' = passwordInput ui
        /\ saveBtn_disabled ui' = false
        /\ timeout = None).
Proof.
  unfold form_ok, Popup.handleSave_scheduling. rewrite !andb_true_iff.
  intros ((((Hc & He) & Hp) & Hvc) & Hve).
  apply negb_true_iff in Hc, He, Hp. rewrite Hc, He, Hp, Hvc, Hve.
  cbn [negb orb]. unfold try_catch, mbind, js_mbind, js_bind.
  destruct (save_total (trim (companyInput ui)) (trim (employeeInput ui))
              (passwordInput ui) w) as (b & Hrun).
  rewrite Hrun. cbn [snd].
  destruct b; cbn [mret js_mret js_ret fst snd];
    eexists _, _, _, _; (split; [reflexivity|]); (split; [reflexivity|]);
    cbn; repeat split; try reflexivity; try discriminate.
Qed.

(** [Popup.handleSave] is [Popup.handleSave_scheduling] followed at once by
    the callback it scheduled, the browser answering with an active tab. *)
Lemma handleSave_fires_at_once (ui : PopupUi) (w : world) (tab : nat) :
  Popup.handleSave ui w
  = (scheduled ← Popup.handleSave_scheduling ui;
     match snd scheduled with
     | Some _ => Popup.openPunchPage (Some tab) (fst scheduled)
     | None => mret (fst scheduled)
     end) w.
Proof.
  unfold Popup.handleSave, Popup.handleSave_scheduling.
  destruct (_ || _ || _); [reflexivity|].
  destruct (negb _); [reflexivity|].
  destruct (negb _); [reflexivity|].
  unfold try_catch, mbind, js_mbind, js_bind.
  destruct (CredentialManager.save _ _ _ w) as [[[|]|ex] w1]; reflexivity.
Qed.

(** What the scheduled callback does: with an active tab it sends the tab
    to the punch page and closes the popup; without one it raises. *)
Lemma openPunchPage_run (tab : option nat) (later : PopupUi) (w : world) :
  Popup.openPunchPage tab later w
  = (match tab with
     | Some _ => Ok (Popup.openPage later)
     | None => Throw TypeError
     end, w).
Proof. now destruct tab. Qed.

(** X15. A form that fails the popup's own checks (a code that is empty
    after trimming, an empty password, a trimmed code that does not pass
    validation) never reaches the vault: [handleSave] shows an error
    message and changes nothing else, neither in the form nor in the
    world. *)
Theorem handleSave_rejects_a_bad_form (ui : PopupUi) (w : world) :
  trim (companyInput ui) = ""
  \/ trim (employeeInput ui) = ""
  \/ passwordInput ui = ""
  \/ CredentialManager.isValidCompanyCode (trim (companyInput ui)) = false
  \/ CredentialManager.isValidEmployeeCode (trim (employeeInput ui)) = false ->
  exists text, Popup.handleSave ui w = (Ok (Popup.showMessage text error ui), w).
Proof.
  intros Hbad. apply handleSave_rejected. unfold form_ok.
  destruct Hbad as [-> | [-> | [-> | [-> | ->]]]]; cbn [String.eqb negb andb];
    rewrite ?andb_false_r; reflexivity.
Qed.

(** X16. When [handleSave] returns with a success message shown, and the
    password typed has no unpaired surrogate and does not begin with
    U+FEFF, the vault holds the trimmed codes and the password of the form:
    [get] returns exactly that record and [getSavedCodes] the trimmed pair.
    The password input has been emptied and the two code inputs are as
    typed.  The tab has not been moved and the popup is still open: that
    step is scheduled 1000 ms later.  When the callback runs, with an
    active tab it sends the tab to the punch page and closes the popup;
    with none it raises a TypeError and changes nothing. *)
Theorem handleSave_success_stores_the_trimmed_form
    (ui ui' : PopupUi) (w w' : world) (text : string)
    (timeout : option (Timeout unit)) :
  plain_text (passwordInput ui) = true ->
  Popup.handleSave_scheduling ui w = (Ok (ui', timeout), w') ->
  message ui' = Some (text, success) ->
  fst (CredentialManager.get w')
  = Ok (Some {| companyCode := VStr (trim (companyInput ui));
                employeeCode := VStr (trim (employeeInput ui));
                password := passwordInput ui |})
  /\ fst (CredentialManager.getSavedCodes w')
     = Ok (Some {| saved_companyCode := VStr (trim (companyInput ui));
                   saved_employeeCode := VStr (trim (employeeInput ui)) |})
  /\ passwordInput ui' = ""
  /\ companyInput ui' = companyInput ui
  /\ employeeInput ui' = employeeInput ui
  /\ tab_url ui' = tab_url ui
  /\ window_closed ui' = window_closed ui
  /\ timeout = Some {| delay := 1000; closure := tt |}
  /\ (forall (later : PopupUi) (tab : nat) (w0 : world),
        exists ui'' : PopupUi,
          Popup.openPunchPage (Some tab) later w0 = (Ok ui'', w0)
          /\ tab_url ui'' = Some Popup.PUNCH_PAGE
          /\ window_closed ui'' = true)
  /\ (forall (later : PopupUi) (w0 : world),
        Popup.openPunchPage None later w0 = (Throw TypeError, w0)).
Proof.
  intros Hplain Hrun Hmessage.
  destruct (form_ok ui) eqn:Hform.
  2:{ destruct (handleSave_scheduling_rejected ui w Hform) as (t & Hrej).
      rewrite Hrej in Hrun. injection Hrun as <- <- <-.
      cbn [message Popup.showMessage] in Hmessage. discriminate. }
  destruct (handleSave_scheduling_accepted ui w Hform)
    as (b & ui0 & timeout0 & t & Hsave & Hui & Hc & He & Htab & Hclosed
        & Htrue & Hfalse).
  rewrite Hrun in Hsave, Hui. cbn [fst snd] in Hsave, Hui.
  injection Hui as <- <-.
  destruct b.
  2:{ destruct (Hfalse eq_refl) as (Hm & _). rewrite Hm in Hmessage.
      discriminate. }
  destruct (Htrue eq_refl) as (_ & Hp & _ & Htimeout).
  destruct (reads_after_save _ _ _ w w' w' Hsave eq_refl) as [Hget Hcodes].
  rewrite (decode_encode _ Hplain) in Hget.
  split; [now apply Hget|]. split; [exact Hcodes|].
  repeat (split; [assumption|]). split.
  - intros later tab w0. exists (Popup.openPage later).
    rewrite openPunchPage_run. repeat split.
  - intros later w0. apply openPunchPage_run.
Qed.

(** X17. [handleSave] never raises and always leaves a message.  Unless the
    message is a success message, the password stays in the form, the
    persistent store is exactly as it was, no tab is navigated, the popup
    stays open, and a save button that was enabled is enabled again. *)
Theorem handleSave_failure_keeps_the_form (ui : PopupUi) (w : world) :
  exists (ui' : PopupUi) (text : string) (type : MessageType),
    fst (Popup.handleSave ui w) = Ok ui'
    /\ message ui' = Some (text, type)
    /\ (type = error ->
        passwordInput ui' = passwordInput ui
        /\ companyInput ui' = companyInput ui
        /\ employeeInput ui' = employeeInput ui
        /\ local (snd (Popup.handleSave ui w)) = local w
        /\ tab_url ui' = tab_url ui
        /\ window_closed ui' = window_closed ui
        /\ (saveBtn_disabled ui = false -> saveBtn_disabled ui' = false)).
Proof.
  destruct (form_ok ui) eqn:Hform.
  - destruct (handleSave_accepted ui w Hform)
      as (b & ui' & text & Hsave & Hui & Hc & He & Htrue & Hfalse).
    exists ui', text, (if b then success else error).
    split; [exact Hui|]. destruct b.
    + split; [apply Htrue; reflexivity | discriminate].
    + destruct (Hfalse eq_refl) as (Hm & Hp & Hbtn & Htab & Hclosed).
      split; [exact Hm|]. intros _.
      repeat (split; [assumption|]).
      split; [now apply (save_false_keeps_local _ _ _ _ _ Hsave)|]. auto.
  - destruct (handleSave_rejected ui w Hform) as (text & ->).
    exists (Popup.showMessage text error ui), text, error.
    cbn. repeat split; auto.
Qed.

(** X18. From the popup to the login form.  [handleSave] has returned with
    a success message shown, for a password that has no unpaired surrogate
    and does not begin with U+FEFF; the callback it scheduled has run and
    returned, on the popup as it was by then; the tab shows the page the
    callback sent it to, which has the login form and is no error page; the
    session key is resident and the persisted fields are the saved ones.
    Then the callback was the one scheduled 1000 ms after the save, the
    page is the punch page, and the content script schedules there, 500 ms
    later, the filling of the form with the trimmed codes and the password
    of the popup's form: on a page that still has the three inputs and the
    button, that callback assigns them to the inputs (each input keeps what
    its value sanitization leaves of the string) and clicks the login
    button once. *)
Theorem popup_save_then_automatic_login
    (ui ui' later ui'' : PopupUi) (w w' w0 w1 w'' : world) (text : string)
    (timeout : option (Timeout unit)) (tab : option nat) (page : Page) :
  plain_text (passwordInput ui) = true ->
  Popup.handleSave_scheduling ui w = (Ok (ui', timeout), w') ->
  message ui' = Some (text, success) ->
  Popup.openPunchPage tab later w0 = (Ok ui'', w1) ->
  tab_url ui'' = Some (page_url page) ->
  local w'' = local w' ->
  session w'' !! CredentialManager.SESSION_KEY_CRYPTO
  = session w' !! CredentialManager.SESSION_KEY_CRYPTO ->
  Content.isTimeoutErrorPage page = false ->
  Content.is500ErrorPage page = false ->
  Content.isLoginPage page = true ->
  timeout = Some {| delay := 1000; closure := tt |}
  /\ page_url page = Popup.PUNCH_PAGE
  /\ exists credentials : Credential,
       credentials = {| companyCode := VStr (trim (companyInput ui));
                        employeeCode := VStr (trim (employeeInput ui));
                        password := passwordInput ui |}
       /\ fst (Content.main_scheduling page w'')
          = Ok (page, Some {| delay := 500; closure := credentials |})
       /\ (forall form : Page,
             Content.isLoginPage form = true ->
             exists clicks : nat,
               bt form = Some clicks
               /\ houjin_code (Content.fillAndSubmit credentials form)
                  = Some (value_sanitization form "houjin_code"
                            (trim (companyInput ui)))
               /\ user_id (Content.fillAndSubmit credentials form)
                  = Some (value_sanitization form "user_id"
                            (trim (employeeInput ui)))
               /\ password_input (Content.fillAndSubmit credentials form)
                  = Some (value_sanitization form "password"
                            (passwordInput ui))
               /\ bt (Content.fillAndSubmit credentials form)
                  = Some (Datatypes.S clicks)).
Proof.
  intros Hplain Hrun Hmessage Hopen Htab Hlocal Hsession Ht H5 Hl.
  destruct (form_ok ui) eqn:Hform.
  2:{ destruct (handleSave_scheduling_rejected ui w Hform) as (t & Hrej).
      rewrite Hrej in Hrun. injection Hrun as <- <- <-.
      cbn [message Popup.showMessage] in Hmessage. discriminate. }
  destruct (handleSave_scheduling_accepted ui w Hform)
    as (b & ui0 & timeout0 & t & Hsave & Hui & _ & _ & _ & _ & Htrue & Hfalse).
  rewrite Hrun in Hsave, Hui. cbn [fst snd] in Hsave, Hui.
  injection Hui as <- <-.
  destruct b.
  2:{ destruct (Hfalse eq_refl) as (Hm & _). rewrite Hm in Hmessage.
      discriminate. }
  destruct (Htrue eq_refl) as (_ & _ & _ & Htimeout).
  rewrite openPunchPage_run in Hopen.
  destruct tab as [tab|]; [|discriminate]. injection Hopen as <- _.
  assert (page_url page = Popup.PUNCH_PAGE) as Hurl
    by (cbn [tab_url Popup.openPage] in Htab; congruence).
  split; [exact Htimeout|]. split; [exact Hurl|].
  eexists. split; [reflexivity|]. split.
  - rewrite (main_scheduling_on_login_page page w'' Ht H5 Hl).
    rewrite (isValidSender_trusted (Content.sender_of page) (page_url page)
               eq_refl eq_refl) by (rewrite Hurl; reflexivity).
    pose proof (proj1 (reads_after_save _ _ _ w w' w'' Hsave Hlocal) Hsession)
      as Hget.
    rewrite (decode_encode _ Hplain) in Hget.
    unfold get_result. now rewrite Hget.
  - intros form Hform'.
    destruct (fillAndSubmit_on_login_form
                {| companyCode := VStr (trim (companyInput ui));
                   employeeCode := VStr (trim (employeeInput ui));
                   password := passwordInput ui |} form Hform')
      as (clicks & Hbt & Hh & Hu & Hpw & Hclick & _).
    exists clicks. auto.
Qed.

Lemma getSavedCodes_total (w : world) :
  exists r, CredentialManager.getSavedCodes w
            = (Ok r, log (LocalGet [CredentialManager.STORAGE_KEY_COMPANY;
                                    CredentialManager.STORAGE_KEY_EMPLOYEE]) w).
Proof. rewrite getSavedCodes_run. eexists. reflexivity. Qed.

(** X19. The clear button.  If the user declines the confirmation nothing
    changes, in the form or in the world.  If the user confirms, the three
    inputs are emptied, a success message is shown, the five stored items
    are gone, and a popup opened afterwards finds nothing to pre-fill:
    [loadSavedCodes] leaves its form as it is. *)
Theorem clear_button_empties_form_and_vault (ui ui0 : PopupUi) (w : world) :
  Popup.onClearClick false ui w = (Ok ui, w)
  /\ exists (ui' : PopupUi) (w' : world) (text : string),
       Popup.onClearClick true ui w = (Ok ui', w')
       /\ companyInput ui' = "" /\ employeeInput ui' = ""
       /\ passwordInput ui' = ""
       /\ message ui' = Some (text, success)
       /\ (forall k, k ∈ LOCAL_KEYS -> local w' !! k = None)
       /\ session w' !! CredentialManager.SESSION_KEY_CRYPTO = None
       /\ fst (Popup.loadSavedCodes ui0 w') = Ok ui0.
Proof.
  split; [reflexivity|].
  unfold Popup.onClearClick, try_catch, mbind, js_mbind, js_bind.
  cbn [negb]. rewrite clear_run. cbn [mret js_mret js_ret].
  eexists _, _, _. split; [reflexivity|]. cbn [companyInput employeeInput
    passwordInput message Popup.showMessage Popup.setInputs].
  repeat (split; [reflexivity|]).
  assert (forall m k, k ∈ LOCAL_KEYS -> storage_remove LOCAL_KEYS m !! k = None)
    as Hfields.
  { intros m k Hk. rewrite lookup_storage_remove. now rewrite decide_True. }
  split; [intros k Hk; apply Hfields, Hk|]. split.
  - cbn [session log with_session with_local].
    rewrite lookup_storage_remove.
    now rewrite decide_True by apply list_elem_of_here.
  - unfold Popup.loadSavedCodes, try_catch, mbind, js_mbind, js_bind.
    rewrite getSavedCodes_run. cbn [local log with_session with_local].
    rewrite Hfields by (apply LOCAL_KEYS_elem; auto). reflexivity.
Qed.

(** X20. Pre-filling the form: [loadSavedCodes] never raises and never
    touches the password input.  After a successful [save] it puts the
    saved company code and employee code into the two code inputs, with or
    without a session key (after a browser restart too); when one of the
    two codes is missing from the persistent store it leaves the form as
    it is. *)
Theorem loadSavedCodes_prefills_the_saved_codes
    (c e p : string) (ui : PopupUi) (w w' w'' : world) :
  CredentialManager.save c e p w = (Ok true, w') ->
  local w'' = local w' ->
  (exists ui', fst (Popup.loadSavedCodes ui w'') = Ok ui'
               /\ companyInput ui' = c
               /\ employeeInput ui' = e
               /\ passwordInput ui' = passwordInput ui
               /\ message ui' = message ui)
  /\ (forall (ui0 : PopupUi) (w0 : world),
        exists ui1, fst (Popup.loadSavedCodes ui0 w0) = Ok ui1
                    /\ passwordInput ui1 = passwordInput ui0
                    /\ (truthy_opt
                          (local w0 !! CredentialManager.STORAGE_KEY_COMPANY)
                        = false
                        \/ truthy_opt
                             (local w0 !! CredentialManager.STORAGE_KEY_EMPLOYEE)
                           = false ->
                        ui1 = ui0)).
Proof.
  intros Hsave Hlocal. split.
  - pose proof (proj2 (reads_after_save c e p w w' w'' Hsave Hlocal)) as Hcodes.
    unfold Popup.loadSavedCodes, try_catch, mbind, js_mbind, js_bind.
    destruct (getSavedCodes_total w'') as (r & Hrun). rewrite Hrun in *.
    cbn [fst] in Hcodes. injection Hcodes as ->.
    eexists. split; [reflexivity|]. cbn. repeat split; reflexivity.
  - intros ui0 w0.
    unfold Popup.loadSavedCodes, try_catch, mbind, js_mbind, js_bind.
    rewrite getSavedCodes_run. unfold truthy_opt.
    destruct (local w0 !! CredentialManager.STORAGE_KEY_COMPANY) as [vc|].
    2:{ exists ui0. repeat split; reflexivity. }
    destruct (local w0 !! CredentialManager.STORAGE_KEY_EMPLOYEE) as [ve|].
    2:{ exists ui0. repeat split; reflexivity. }
    destruct (truthy vc) eqn:Htc; cbn [andb].
    2:{ exists ui0. repeat split; reflexivity. }
    destruct (truthy ve) eqn:Hte.
    2:{ exists ui0. repeat split; reflexivity. }
    eexists. split; [reflexivity|]. split; [reflexivity|].
    intros [?|?]; discriminate.
Qed.

End popup_script.

(** ** The further properties on the reference platform *)

From Stdlib Require Import DecimalString.

Module ReferenceUi.

Definition is_space (c : ascii) : bool :=
  match nat_of_ascii c with
  | 9%nat | 10%nat | 11%nat | 12%nat | 13%nat | 32%nat => true
  | _ => false
  end.

Fixpoint trim_start (cs : list ascii) : list ascii :=
  match cs with
  | c :: rest => if is_space c then trim_start rest else cs
  | [] => []
  end.

(** Trims ASCII white space. *)
Definition trim (s : string) : string :=
  string_of_list_ascii
    (rev (trim_start (rev (trim_start (list_ascii_of_string s))))).

Definition Array_toString (a : list Z) : string :=
  String.concat "," (map (fun n => NilZero.string_of_int (Z.to_int n)) a).

#[export] Instance strings : JsString := Build_JsString trim Array_toString.

(** The value sanitization of an input of type text or password: line
    feeds and carriage returns are dropped. *)
Definition strip_newlines (s : string) : string :=
  string_of_list_ascii
    (filter (fun c => negb ((nat_of_ascii c =? 10)%nat
                            || (nat_of_ascii c =? 13)%nat))
       (list_ascii_of_string s)).

(** The login form of the service, untouched; its three inputs are of type
    text or password. *)
Definition login_page : Page :=
  {| page_url := "https://kinrouap1.hr44.jp/kinrou/kojin/kintaiDakoku/";
     title := "勤労の獅子";
     h1 := None;
     h2 := None;
     houjin_code := Some "";
     user_id := Some "";
     password_input := Some "";
     bt := Some 0%nat;
     input_events := [];
     location_href := None;
     value_sanitization := fun _ => strip_newlines |}.

(** The popup after a successful save of [filled_form] below. *)
Definition saved_form : PopupUi :=
  {| companyInput := " 12345 ";
     employeeInput := "0042";
     passwordInput := "";
     message := Some ("認証情報を保存しました。打刻画面へ移動します...",
                      success);
     saveBtn_disabled := true;
     saveBtn_textContent := "保存中...";
     tab_url := None;
     window_closed := false |}.

(** The popup's form as a user fills it, with stray blanks. *)
Definition filled_form : PopupUi :=
  {| companyInput := " 12345 ";
     employeeInput := "0042";
     passwordInput := "hunter2";
     message := None;
     saveBtn_disabled := false;
     saveBtn_textContent := "保存";
     tab_url := None;
     window_closed := false |}.

(** The same form with a company code of six digits. *)
Definition bad_form : PopupUi :=
  {| companyInput := "123456";
     employeeInput := "0042";
     passwordInput := "hunter2";
     message := None;
     saveBtn_disabled := false;
     saveBtn_textContent := "保存";
     tab_url := None;
     window_closed := false |}.

Definition trusted_sender : MessageSender :=
  {| sender_id := Some "abcdefghijklmnopabcdefghijklmnop";
     sender_url := Some "https://kinrouap1.hr44.jp/kinrou/kojin/" |}.

End ReferenceUi.

Section extras_on_reference_platform.
#[local] Existing Instance Reference.platform.
#[local] Existing Instance ReferenceUi.strings.

Example reference_trim : trim " 12345 " = "12345".
Proof. reflexivity. Qed.

Example lookalike_host_is_refused :
  ServiceWorker.isValidSender
    {| sender_id := Some runtime_id;
       sender_url := Some "https://kinrouap1.hr44.jp.example.com/" |} = false.
Proof. reflexivity. Qed.

(** A [null] message from the popup makes the listener raise; from a
    foreign page it is answered [null] like any other. *)
Example null_message_examples :
  ServiceWorker.listener Nullish
    {| sender_id := Some runtime_id; sender_url := None |}
    Reference.saved_world
  = (Throw TypeError, Reference.saved_world)
  /\ ServiceWorker.listener Nullish Reference.foreign_page
       Reference.saved_world
     = (Ok {| sent := Some Null; returned := Some false |},
        Reference.saved_world).
Proof. split; reflexivity. Qed.

Lemma encryptPassword_decryptPassword_round_trip_witness :
  exists encrypted iv,
    fst (CredentialManager.encryptPassword "hunter2"
           (minted_key Reference.fresh_world) Reference.saved_world)
    = Ok (encrypted, iv)
    /\ CredentialManager.decryptPassword encrypted iv
         (minted_key Reference.fresh_world) Reference.locked_world
       = (Ok "hunter2", Reference.locked_world)
    /\ iv = Array_from (next_iv Reference.saved_world).
Proof.
  eexists _, _. split; [vm_compute; reflexivity|].
  destruct (@encryptPassword_decryptPassword_round_trip
              Reference.platform "hunter2" (minted_key Reference.fresh_world)
              Reference.saved_world
              (after_draw 12 Reference.saved_world) Reference.locked_world
              _ _ eq_refl)
    as (Hround & _ & Hplain & Hiv & _).
  rewrite (Hplain eq_refl) in Hround. split; [exact Hround | exact Hiv].
Defined.

Lemma save_keeps_the_session_key_witness :
  session (snd (CredentialManager.save "777" "1" "other" Reference.saved_world))
  = session Reference.saved_world.
Proof.
  refine (proj1 (proj2 (@save_keeps_the_session_key Reference.platform
                          "12345" "0042" "hunter2" "777" "1" "other"
                          Reference.fresh_world Reference.saved_world _))).
  vm_compute. reflexivity.
Defined.

Lemma reachable_worlds_are_consistent_witness :
  vault_consistent Reference.locked_world.
Proof.
  apply (@reachable_worlds_are_consistent Reference.platform).
  apply reachable_restart, reachable_save, reachable_install.
Defined.

Lemma trusted_page_receives_the_saved_record_witness :
  fst (ServiceWorker.onMessage "GET_CREDENTIALS" ReferenceUi.trusted_sender
         Reference.saved_world)
  = Ok {| sent := Some (Credentials {| companyCode := VStr "12345";
                                       employeeCode := VStr "0042";
                                       password := "hunter2" |});
          returned := Some true |}.
Proof.
  apply (@trusted_page_receives_the_saved_record Reference.platform
           "12345" "0042" "hunter2" "https://kinrouap1.hr44.jp/kinrou/kojin/"
           ReferenceUi.trusted_sender Reference.fresh_world
           Reference.saved_world Reference.saved_world).
  - reflexivity.
  - vm_compute. reflexivity.
  - reflexivity.
  - reflexivity.
  - reflexivity.
  - reflexivity.
  - reflexivity.
Defined.

Lemma trusted_page_in_locked_state_witness :
  fst (ServiceWorker.onMessage "GET_CREDENTIALS" ReferenceUi.trusted_sender
         Reference.locked_world)
  = Ok {| sent := Some Null; returned := Some true |}.
Proof.
  refine (proj1 (@trusted_page_in_locked_state Reference.platform
                   "12345" "0042" "hunter2"
                   "https://kinrouap1.hr44.jp/kinrou/kojin/"
                   ReferenceUi.trusted_sender Reference.fresh_world
                   Reference.saved_world Reference.locked_world
                   _ eq_refl eq_refl eq_refl eq_refl eq_refl)).
  vm_compute. reflexivity.
Defined.

Lemma content_script_logs_in_with_the_saved_record_witness :
  fst (Content.main_scheduling ReferenceUi.login_page Reference.saved_world)
  = Ok (ReferenceUi.login_page,
        Some {| delay := 500;
                closure := {| companyCode := VStr "12345";
                              employeeCode := VStr "0042";
                              password := "hunter2" |} |})
  /\ password_input
       (Content.fillAndSubmit
          {| companyCode := VStr "12345"; employeeCode := VStr "0042";
             password := "hunter2" |} ReferenceUi.login_page)
     = Some "hunter2".
Proof.
  destruct (@content_script_logs_in_with_the_saved_record
              Reference.platform ReferenceUi.strings
              "12345" "0042" "hunter2" Reference.fresh_world
              Reference.saved_world Reference.saved_world
              ReferenceUi.login_page)
    as (credentials & -> & Hrun & Hfill & _).
  - reflexivity.
  - vm_compute. reflexivity.
  - reflexivity.
  - reflexivity.
  - reflexivity.
  - reflexivity.
  - reflexivity.
  - reflexivity.
  - split; [exact Hrun|].
    destruct (Hfill ReferenceUi.login_page eq_refl)
      as (clicks & _ & _ & _ & Hp & _).
    exact Hp.
Defined.

(** A line break in the saved password does not reach the password input
    of the login form. *)
Example line_break_is_dropped_by_the_input :
  password_input
    (Content.fillAndSubmit
       {| companyCode := VStr "12345"; employeeCode := VStr "0042";
          password := String "a" (String (ascii_of_nat 10) "b") |}
       ReferenceUi.login_page)
  = Some "ab".
Proof. reflexivity. Qed.

Lemma content_script_without_record_leaves_the_page_witness :
  fst (Content.main ReferenceUi.login_page Reference.locked_world)
  = Ok ReferenceUi.login_page.
Proof.
  apply (@content_script_without_record_leaves_the_page
           Reference.platform ReferenceUi.strings).
  - left. vm_compute. reflexivity.
  - reflexivity.
  - reflexivity.
Defined.

Lemma handleSave_rejects_a_bad_form_witness :
  exists text,
    Popup.handleSave ReferenceUi.bad_form Reference.saved_world
    = (Ok (Popup.showMessage text error ReferenceUi.bad_form),
       Reference.saved_world).
Proof.
  apply (@handleSave_rejects_a_bad_form Reference.platform ReferenceUi.strings).
  right; right; right; left. reflexivity.
Defined.

Lemma handleSave_success_stores_the_trimmed_form_witness :
  fst (CredentialManager.get
         (snd (Popup.handleSave_scheduling ReferenceUi.filled_form
                 Reference.fresh_world)))
  = Ok (Some {| companyCode := VStr "12345"; employeeCode := VStr "0042";
                password := "hunter2" |})
  /\ tab_url ReferenceUi.saved_form = None
  /\ window_closed ReferenceUi.saved_form = false.
Proof.
  destruct (@handleSave_success_stores_the_trimmed_form
              Reference.platform ReferenceUi.strings
              ReferenceUi.filled_form ReferenceUi.saved_form
              Reference.fresh_world
              (snd (Popup.handleSave_scheduling ReferenceUi.filled_form
                      Reference.fresh_world))
              "認証情報を保存しました。打刻画面へ移動します..."
              (Some {| delay := 1000; closure := tt |}))
    as (Hget & _ & _ & _ & _ & Htab & Hclosed & _).
  - reflexivity.
  - vm_compute. reflexivity.
  - reflexivity.
  - split; [exact Hget|]. split; [exact Htab | exact Hclosed].
Defined.

Lemma popup_save_then_automatic_login_witness :
  fst (Content.main_scheduling ReferenceUi.login_page
         (snd (Popup.handleSave_scheduling ReferenceUi.filled_form
                 Reference.fresh_world)))
  = Ok (ReferenceUi.login_page,
        Some {| delay := 500;
                closure := {| companyCode := VStr "12345";
                              employeeCode := VStr "0042";
                              password := "hunter2" |} |}).
Proof.
  destruct (@popup_save_then_automatic_login
              Reference.platform ReferenceUi.strings
              ReferenceUi.filled_form ReferenceUi.saved_form
              ReferenceUi.saved_form
              (Popup.openPage ReferenceUi.saved_form)
              Reference.fresh_world
              (snd (Popup.handleSave_scheduling ReferenceUi.filled_form
                      Reference.fresh_world))
              Reference.fresh_world Reference.fresh_world
              (snd (Popup.handleSave_scheduling ReferenceUi.filled_form
                      Reference.fresh_world))
              "認証情報を保存しました。打刻画面へ移動します..."
              (Some {| delay := 1000; closure := tt |})
              (Some 7%nat) ReferenceUi.login_page)
    as (_ & _ & credentials & -> & Hrun & _).
  - reflexivity.
  - vm_compute. reflexivity.
  - reflexivity.
  - reflexivity.
  - reflexivity.
  - reflexivity.
  - reflexivity.
  - reflexivity.
  - reflexivity.
  - reflexivity.
  - exact Hrun.
Defined.

Lemma loadSavedCodes_prefills_the_saved_codes_witness :
  exists ui',
    fst (Popup.loadSavedCodes ReferenceUi.bad_form Reference.locked_world)
    = Ok ui'
    /\ companyInput ui' = "12345"
    /\ employeeInput ui' = "0042"
    /\ passwordInput ui' = "hunter2".
Proof.
  destruct (@loadSavedCodes_prefills_the_saved_codes
              Reference.platform ReferenceUi.strings
              "12345" "0042" "hunter2" ReferenceUi.bad_form
              Reference.fresh_world Reference.saved_world
              Reference.locked_world)
    as ((ui' & Hrun & Hc & He & Hp & _) & _).
  - vm_compute. reflexivity.
  - reflexivity.
  - exists ui'. auto.
Defined.

End extras_on_reference_platform.
